(** * SnapShot SAST microservice: the analysis pipeline of [app.py]

    A shallow embedding of [sast_service/app/app.py]: the content
    classifier, the ruleset resolution, the semgrep invoker, the two bounded
    in-memory stores and the orchestrating [analyze_sast].

    Modelling choices.
    - Python [str] is [string], the UTF-8 bytes of the text; [lower] and
      [upper] are [str.lower] and [str.upper] on ASCII text. Where the code
      upper-cases text that the engine supplies (lines 160 and 204), which may
      hold any character, the result is asked of the runtime: [str_upper], a
      field of [Env].
    - The scalar values that travel in request records and scanning items
      ([None], integers, strings, and the float [nan], the one value that
      [==] does not relate to itself) are the type [value], compared by
      [py_eq]; a Python [dict] with string keys is a [gmap string _].
    - [record] and [headers] reach [analyze_sast] as members of the request's
      JSON: a [pyobj] is a JSON object or some other value, on which [.get]
      raises.
    - The module globals ([sast_findings], [sast_scanning],
      [semgrep_initialized]), the scratch directory and the pending
      [threading.Timer] callbacks form the record [state]; every function of
      the module that touches them is a computation in the monad [M], which
      threads the state and carries Python exceptions.
    - What the operating system and the semgrep process answer (directory
      listings, the clock, the uuid, the engine's exit code and output) is the
      record [Env], an argument of the functions that ask. *)

From Stdlib Require Import Ascii ZArith Lia.
From stdpp Require Import base option list strings gmap fin_maps.

Set Warnings "-register-all".

Local Open Scope Z_scope.
Local Open Scope stdpp_scope.

(** ** Python strings *)

Module PyStr.

Definition is_lower_ascii (c : ascii) : bool :=
  let n := N_of_ascii c in ((97 <=? n) && (n <=? 122))%N.

Definition is_upper_ascii (c : ascii) : bool :=
  let n := N_of_ascii c in ((65 <=? n) && (n <=? 90))%N.

Definition upper_ascii (c : ascii) : ascii :=
  if is_lower_ascii c then ascii_of_N (N_of_ascii c - 32) else c.

Definition lower_ascii (c : ascii) : ascii :=
  if is_upper_ascii c then ascii_of_N (N_of_ascii c + 32) else c.

(** [s.upper()] and [s.lower()] *)
Fixpoint upper (s : string) : string :=
  match s with
  | EmptyString => EmptyString
  | String c r => String (upper_ascii c) (upper r)
  end.

Fixpoint lower (s : string) : string :=
  match s with
  | EmptyString => EmptyString
  | String c r => String (lower_ascii c) (lower r)
  end.

(** [s.startswith(p)] *)
Fixpoint startswith (s p : string) : bool :=
  match p, s with
  | EmptyString, _ => true
  | String _ _, EmptyString => false
  | String a p', String b s' => if Ascii.eqb a b then startswith s' p' else false
  end.

(** [needle in s] *)
Fixpoint contains (needle s : string) : bool :=
  startswith s needle ||
  match s with
  | EmptyString => false
  | String _ s' => contains needle s'
  end.

(** [s.endswith(suffix)] *)
Fixpoint endswith (s suffix : string) : bool :=
  String.eqb s suffix ||
  match s with
  | EmptyString => false
  | String _ s' => endswith s' suffix
  end.

(** [s.split(sep)] for a one-character separator: never an empty list. *)
Fixpoint split (sep : ascii) (s : string) : list string :=
  match s with
  | EmptyString => [EmptyString]
  | String c r =>
      if Ascii.eqb c sep then EmptyString :: split sep r
      else match split sep r with
           | h :: t => String c h :: t
           | [] => [String c EmptyString]
           end
  end.

(** [s[1:]] *)
Definition tail (s : string) : string :=
  match s with
  | EmptyString => EmptyString
  | String _ r => r
  end.

(** [c in s] for one character, used to say that a segment has no dot. *)
Fixpoint has_char (c : ascii) (s : string) : bool :=
  match s with
  | EmptyString => false
  | String d r => Ascii.eqb c d || has_char c r
  end.

(** [os.path.join(a, b)] on POSIX, for two components. *)
Definition path_join (a b : string) : string :=
  if startswith b "/" then b
  else if String.eqb a "" || endswith a "/" then a +:+ b
  else a +:+ "/" +:+ b.

End PyStr.

Import PyStr.

(** ** Exceptions and values *)

Inductive exn : Type :=
  | KeyError | TypeError | AttributeError | IndexError
  | OSError | FileNotFoundError | SubprocessError | JSONDecodeError.

Inductive res (A : Type) : Type :=
  | Ok (a : A)
  | Raise (e : exn).
Arguments Ok {A} a.
Arguments Raise {A} e.

(** JSON scalars as Python sees them: [None], [int], [str], and the float
    [nan], which [json.loads] accepts and which [==] relates to nothing, not
    even to itself. *)
Inductive value : Type :=
  | VNone
  | VInt (z : Z)
  | VStr (s : string)
  | VNaN.

Global Instance value_eq_dec : EqDecision value.
Proof. solve_decision. Defined.

(** Python truthiness, [bool(v)]. *)
Definition truthy (v : value) : bool :=
  match v with
  | VNone => false
  | VInt z => negb (z =? 0)
  | VStr s => negb (String.eqb s "")
  | VNaN => true
  end.

(** [v == w] and [v != w] *)
Definition py_eq (v w : value) : bool :=
  match v, w with
  | VNaN, _ | _, VNaN => false
  | _, _ => bool_decide (v = w)
  end.

Definition py_ne (v w : value) : bool := negb (py_eq v w).

(** Decimal digits of an integer, for [str(int)]. *)
Fixpoint pos_digits (fuel : nat) (n : Z) (acc : string) : string :=
  match fuel with
  | O => acc
  | S f =>
      let d := ascii_of_N (Z.to_N (48 + n mod 10)) in
      if n <? 10 then String d acc else pos_digits f (n / 10) (String d acc)
  end.

Definition str_of_Z (z : Z) : string :=
  if z <? 0 then String "-" (pos_digits (S (Z.to_nat (Z.log2 (- z)))) (- z) "")
  else pos_digits (S (Z.to_nat (Z.log2 z))) z "".

(** [str(v)] *)
Definition str (v : value) : string :=
  match v with
  | VNone => "None"
  | VInt z => str_of_Z z
  | VStr s => s
  | VNaN => "nan"
  end.

(** A Python dict with string keys and scalar values. *)
Abbreviation dict := (gmap string value).

(** [d.get(k, default)] *)
Definition dict_get (d : dict) (k : string) (dflt : value) : value :=
  default dflt (d !! k).

(** [d[k]] *)
Definition dict_item (d : dict) (k : string) : res value :=
  match d !! k with
  | Some v => Ok v
  | None => Raise KeyError
  end.

(** [not d] is true for the empty dict. *)
Definition dict_truthy (d : dict) : bool := negb (bool_decide (d = ∅)).

(** ** The error monad [res] and the state monad [M] *)

Global Instance res_ret : MRet res := λ A a, Ok a.
Global Instance res_bind : MBind res := λ A B k m,
  match m with
  | Ok a => k a
  | Raise e => Raise e
  end.

(** The engine's parsed output: what [json.loads] returns. An object keeps
    its members in the order of the text; as in [json.loads], the last
    member with a given name is the one a lookup sees. *)
Inductive json : Type :=
  | JNull
  | JBool (b : bool)
  | JNum (z : Z)
  | JStr (s : string)
  | JArr (l : list json)
  | JObj (kv : list (string * json)).

Fixpoint obj_lookup (k : string) (kv : list (string * json)) : option json :=
  match kv with
  | [] => None
  | (k', v) :: r =>
      match obj_lookup k r with
      | Some x => Some x
      | None => if String.eqb k k' then Some v else None
      end
  end.

(** [j[k]] for a string key [k] *)
Definition json_item (j : json) (k : string) : res json :=
  match j with
  | JObj kv => match obj_lookup k kv with Some v => Ok v | None => Raise KeyError end
  | _ => Raise TypeError
  end.

(** [len(j)] *)
Definition json_len (j : json) : res nat :=
  match j with
  | JObj kv => Ok (size (list_to_set (fst <$> kv) : gset string))
  | JArr l => Ok (length l)
  | JStr s => Ok (String.length s)
  | _ => Raise TypeError
  end.

(** [bool(j)] *)
Definition json_truthy (j : json) : bool :=
  match j with
  | JNull => false
  | JBool b => b
  | JNum z => negb (z =? 0)
  | JStr s => negb (String.eqb s "")
  | JArr l => negb (bool_decide (l = []))
  | JObj kv => negb (bool_decide (kv = []))
  end.

(** [k in j] for a string [k] *)
Definition json_has (k : string) (j : json) : res bool :=
  match j with
  | JObj kv => Ok (bool_decide (is_Some (obj_lookup k kv)))
  | JArr l => Ok (existsb (λ x, match x with JStr s => String.eqb s k | _ => false end) l)
  | JStr s => Ok (contains k s)
  | _ => Raise TypeError
  end.

(** The string of a value on which a [str] method is called. *)
Definition json_str (j : json) : res string :=
  match j with
  | JStr s => Ok s
  | _ => Raise AttributeError
  end.

Definition value_str (v : value) : res string :=
  match v with
  | VStr s => Ok s
  | _ => Raise AttributeError
  end.

(** [l[-1]] *)
Definition last_item {A} (l : list A) : res A :=
  match last l with
  | Some x => Ok x
  | None => Raise IndexError
  end.

(** ** Findings *)

Record Details : Type := {
  d_rule : json;
  d_path : json;
  d_startLine : json;
  d_endLine : json
}.

(** The dict literal of lines 159-177, one field per key. *)
Record Finding : Type := {
  f_type : string;
  f_cveId : string;
  f_severity : string;
  f_title : json;
  f_url : value;
  f_tech : string;
  f_version : value;
  f_indicator : json;
  f_method : value;
  f_at : value;
  f_source : string;
  f_details : Details
}.

(** ** Constants, the environment and the state *)

Definition MAX_SAST_FINDINGS : nat := 500.
Definition MAX_SCANNING_ITEMS : nat := 20.

(** What the outside world answers during one call: the operating system,
    the engine, and the runtime's Unicode tables. *)
Record Env : Type := {
  cwd : string;                              (* os.getcwd() when the module is loaded *)
  uuid4 : string;                            (* str(uuid.uuid4()) *)
  now_ms : Z;                                (* int(datetime.now().timestamp() * 1000) *)
  open_ok : string → bool;                   (* open(path, 'w') succeeds *)
  write_ok : string → string → bool;         (* f.write(content) succeeds *)
  unlink_ok : string → bool;                 (* os.unlink(path) is permitted *)
  listdir : string → res (list string);      (* os.listdir(path) *)
  isdir : string → bool;                     (* os.path.isdir(path) *)
  path_exists : string → bool;               (* os.path.exists(path) *)
  run_semgrep : string → string → res string;(* stdout of semgrep --config r f --json *)
  json_loads : string → res json;            (* json.loads(stdout) *)
  str_upper : string → string                (* s.upper(), by the Unicode tables *)
}.

Definition TEMP_DIR (env : Env) : string := path_join (cwd env) "temp_sast".
Definition RULES_DIR (env : Env) : string := path_join (cwd env) "semgrep-rules".

(** The module globals, the files on disk and the timers not yet fired
    (each holds the url its callback will remove). *)
Record state : Type := {
  sast_findings : list Finding;
  sast_scanning : list dict;
  semgrep_initialized : bool;
  files : gmap string string;
  timers : list value
}.

Definition set_findings (l : list Finding) (st : state) : state :=
  {| sast_findings := l; sast_scanning := sast_scanning st;
     semgrep_initialized := semgrep_initialized st;
     files := files st; timers := timers st |}.

Definition set_scanning (l : list dict) (st : state) : state :=
  {| sast_findings := sast_findings st; sast_scanning := l;
     semgrep_initialized := semgrep_initialized st;
     files := files st; timers := timers st |}.

Definition set_files (f : gmap string string) (st : state) : state :=
  {| sast_findings := sast_findings st; sast_scanning := sast_scanning st;
     semgrep_initialized := semgrep_initialized st;
     files := f; timers := timers st |}.

Definition set_timers (t : list value) (st : state) : state :=
  {| sast_findings := sast_findings st; sast_scanning := sast_scanning st;
     semgrep_initialized := semgrep_initialized st;
     files := files st; timers := t |}.

(** The state when the module has been loaded. *)
Definition initial_state : state :=
  {| sast_findings := []; sast_scanning := []; semgrep_initialized := false;
     files := ∅; timers := [] |}.

Definition M (A : Type) : Type := state → state * res A.

Definition ret {A} (a : A) : M A := λ st, (st, Ok a).
Definition raise {A} (e : exn) : M A := λ st, (st, Raise e).
Definition lift {A} (r : res A) : M A := λ st, (st, r).
Definition get : M state := λ st, (st, Ok st).
Definition modify (f : state → state) : M unit := λ st, (f st, Ok tt).

Definition bind {A B} (m : M A) (k : A → M B) : M B := λ st,
  match m st with
  | (st', Ok a) => k a st'
  | (st', Raise e) => (st', Raise e)
  end.

(** [try: m  except <classes>: h] *)
Definition try_except {A} (m : M A) (caught : exn → bool) (h : exn → M A) : M A := λ st,
  match m st with
  | (st', Ok a) => (st', Ok a)
  | (st', Raise e) => if caught e then h e st' else (st', Raise e)
  end.

(** [try: m  finally: fin] *)
Definition try_finally {A} (m : M A) (fin : M unit) : M A := λ st,
  match m st with
  | (st', r) =>
      match fin st' with
      | (st'', Ok _) => (st'', r)
      | (st'', Raise e) => (st'', Raise e)
      end
  end.

Global Instance M_ret : MRet M := @ret.
Global Instance M_bind : MBind M := λ A B k m, bind m k.

Definition any_exception (e : exn) : bool := true.

(** [isinstance(e, c)]: the class itself, or [FileNotFoundError] under
    [OSError]. *)
Definition is_exn (c e : exn) : bool :=
  match c, e with
  | KeyError, KeyError | TypeError, TypeError | AttributeError, AttributeError
  | IndexError, IndexError | OSError, OSError | OSError, FileNotFoundError
  | FileNotFoundError, FileNotFoundError | SubprocessError, SubprocessError
  | JSONDecodeError, JSONDecodeError => true
  | _, _ => false
  end.

(** [try: r  except <classes>: h] for a block that touches no global *)
Definition res_except {A} (r : res A) (caught : exn → bool) (h : exn → res A) : res A :=
  match r with
  | Ok a => Ok a
  | Raise e => if caught e then h e else Raise e
  end.

(** ** Severity mapping (lines 196-206) *)

Definition severity_map : gmap string string :=
  {[ "ERROR" := "CRITICAL"; "WARNING" := "HIGH"; "INFO" := "MEDIUM" ]}.

Definition map_semgrep_severity_to_sast_severity (env : Env) (semgrep_severity : json)
    : res string :=
  if json_truthy semgrep_severity then
    s ← json_str semgrep_severity;
    let u := str_upper env s in
    if bool_decide (is_Some (severity_map !! u)) then
      match severity_map !! u with
      | Some r => Ok r
      | None => Raise KeyError
      end
    else Ok "MEDIUM"
  else Ok "MEDIUM".

(** ** Legacy analyzers (lines 209-230): stubs in the source *)

Definition analyze_html (text : string) (url host path method timestamp : value)
  : list Finding := [].
Definition analyze_javascript (text : string) (url host path method timestamp : value)
  : list Finding := [].
Definition analyze_generic (text : string) (url host path method timestamp : value)
  : list Finding := [].

(** ** Display type (lines 233-248) *)

Definition get_file_type_from_content_type (headers : dict) : string :=
  let content_type := lower (str (dict_get headers "content-type" (VStr ""))) in
  if contains "html" content_type then "HTML"
  else if contains "javascript" content_type then "JavaScript"
  else if contains "json" content_type then "JSON"
  else if contains "xml" content_type then "XML"
  else if contains "css" content_type then "CSS"
  else "Unknown".

(** ** Scanning registry (lines 251-287) *)

(** [[scan for scan in l if scan['url'] != url]] *)
Fixpoint without_url (url : value) (l : list dict) : res (list dict) :=
  match l with
  | [] => Ok []
  | scan :: rest =>
      u ← dict_item scan "url";
      r ← without_url url rest;
      Ok (if py_ne u url then scan :: r else r)
  end.

(** [l.pop(0)], the popped element dropped *)
Definition pop0 {A} (l : list A) : res (list A) :=
  match l with
  | [] => Raise IndexError
  | _ :: r => Ok r
  end.

Definition add_scanning_item (item : dict) : M (list dict) :=
  st ← get;
  if negb (dict_truthy item) || negb (bool_decide (is_Some (item !! "url"))) then
    mret (sast_scanning st)
  else
    url ← lift (dict_item item "url");
    kept ← lift (without_url url (sast_scanning st));
    modify (set_scanning kept);;
    modify (λ st, set_scanning (sast_scanning st ++ [item]) st);;
    st ← get;
    (if (MAX_SCANNING_ITEMS <? length (sast_scanning st))%nat then
       l ← lift (pop0 (sast_scanning st));
       modify (set_scanning l)
     else mret tt);;
    st ← get;
    mret (sast_scanning st).

(** The loop of lines 275-278: the list after the loop, and how it ended. *)
Fixpoint set_first_status (url status : value) (l : list dict) : list dict * res unit :=
  match l with
  | [] => ([], Ok tt)
  | item :: rest =>
      match dict_item item "url" with
      | Raise e => (item :: rest, Raise e)
      | Ok u =>
          if py_eq u url then (<["status" := status]> item :: rest, Ok tt)
          else let '(rest', r) := set_first_status url status rest in (item :: rest', r)
      end
  end.

Definition update_scanning_item_status (url status : value) : M (list dict) := λ st,
  let '(l, r) := set_first_status url status (sast_scanning st) in
  (set_scanning l st, _ ← r; Ok l).

Definition remove_scanning_item (url : value) : M (list dict) :=
  st ← get;
  kept ← lift (without_url url (sast_scanning st));
  modify (set_scanning kept);;
  mret kept.

(** ** Findings store (lines 290-300) *)

(** The body of the loop of lines 297-300, then the loop. *)
Definition append_finding (item : Finding) : M unit :=
  modify (λ st, set_findings (sast_findings st ++ [item]) st);;
  st ← get;
  if (MAX_SAST_FINDINGS <? length (sast_findings st))%nat then
    l ← lift (pop0 (sast_findings st));
    modify (set_findings l)
  else mret tt.

Fixpoint append_findings (items : list Finding) : M unit :=
  match items with
  | [] => mret tt
  | item :: rest => append_finding item;; append_findings rest
  end.

(** [items] is a list by its type; [not items] is the empty list. *)
Definition add_sast_findings (items : list Finding) : M unit :=
  if bool_decide (items = []) then mret tt
  else append_findings items.

(** ** The semgrep invoker (lines 61-193) *)

(** [url.endswith(suffix)]: [url] comes from the request and is a [str]
    only if the client sent one. *)
Definition url_endswith (url : value) (suffix : string) : res bool :=
  u ← value_str url; Ok (endswith u suffix).

(** Lines 77-95. *)
Definition choose_extension (content_type : string) (url : value) : res string :=
  if contains "html" content_type then Ok ".html"
  else if contains "javascript" content_type then Ok ".js"
  else if contains "json" content_type then Ok ".json"
  else if contains "php" content_type then Ok ".php"
  else if contains "python" content_type then Ok ".py"
  else
    js ← url_endswith url ".js";
    if (js : bool) then Ok ".js"
    else
      php ← url_endswith url ".php";
      if (php : bool) then Ok ".php"
      else
        py ← url_endswith url ".py";
        if (py : bool) then Ok ".py" else Ok ".txt".

(** Line 97. *)
Definition temp_file_path (env : Env) (extension : string) : string :=
  path_join (TEMP_DIR env) (uuid4 env +:+ extension).

(** Lines 101-102: [open] creates the file, [write] fills it. *)
Definition write_temp_file (env : Env) (path content : string) : M unit := λ st,
  if open_ok env path then
    if write_ok env path content then
      (set_files (<[path := content]> (files st)) st, Ok tt)
    else (set_files (<[path := ""]> (files st)) st, Raise OSError)
  else (st, Raise OSError).

(** [os.unlink(path)] *)
Definition unlink (env : Env) (path : string) : M unit := λ st,
  if unlink_ok env path && bool_decide (is_Some (files st !! path)) then
    (set_files (delete path (files st)) st, Ok tt)
  else (st, Raise OSError).

(** One of the four branches of lines 106-141, for the rules of [language]. *)
Definition language_rulesets (env : Env) (language : string) : res (list string) :=
  let path := RULES_DIR env +:+ "/" +:+ language in
  let rulesets := [path +:+ "/security"] in
  items ← listdir env path;
  Ok (foldl (λ (rulesets : list string) (item : string),
               let item_path := path_join path item in
               if isdir env item_path then rulesets ++ [item_path] else rulesets)
            rulesets items).

(** Lines 105-141. *)
Definition resolve_rulesets (env : Env) (extension : string) : res (list string) :=
  if String.eqb extension ".js" then language_rulesets env "javascript"
  else if String.eqb extension ".html" then language_rulesets env "html"
  else if String.eqb extension ".php" then language_rulesets env "php"
  else if String.eqb extension ".py" then language_rulesets env "python"
  else Ok [].

(** [v or ''], as in [host or ''] and [body or ''] *)
Definition or_empty (v : value) : value := if truthy v then v else VStr "".

(** The dict literal of lines 159-177, its keys evaluated in order. The
    rule name is the engine's text and may hold any character: its upper case
    is the runtime's. The extension is one of the six ASCII literals of lines
    77-95, whose upper case is [upper]. *)
Definition finding_of_result (env : Env) (finding : json)
    (url method host timestamp : value) (extension : string) : res Finding :=
  check_id ← json_item finding "check_id";
  rule ← json_str check_id;
  segment ← last_item (split "." rule);
  check_id' ← json_item finding "check_id";
  extra ← json_item finding "extra";
  sev ← json_item extra "severity";
  severity ← map_semgrep_severity_to_sast_severity env sev;
  extra ← json_item finding "extra";
  message ← json_item extra "message";
  extra ← json_item finding "extra";
  lines ← json_item extra "lines";
  rule_id ← json_item finding "check_id";
  path ← json_item finding "path";
  start ← json_item finding "start";
  start_line ← json_item start "line";
  end_ ← json_item finding "end";
  end_line ← json_item end_ "line";
  Ok {| f_type := str_upper env segment;
        f_cveId := "[SEMGREP-" +:+ rule +:+ "]";
        f_severity := severity;
        f_title := message;
        f_url := url;
        f_tech := upper (tail extension);
        f_version := or_empty host;
        f_indicator := lines;
        f_method := method;
        f_at := timestamp;
        f_source := "SEMGREP";
        f_details := {| d_rule := rule_id; d_path := path;
                        d_startLine := start_line; d_endLine := end_line |} |}.

(** Lines 155-177: the findings one engine output adds. *)
Definition findings_of_output (env : Env) (stdout : string)
    (url method host timestamp : value) (extension : string) : res (list Finding) :=
  semgrep_results ← json_loads env stdout;
  logged ← json_item semgrep_results "results";
  _ ← json_len logged;
  has ← json_has "results" semgrep_results;
  if (has : bool) then
    results ← json_item semgrep_results "results";
    match results with
    | JArr l =>
        mapM (λ finding, finding_of_result env finding url method host timestamp extension) l
    | _ => Ok []
    end
  else Ok [].

(** Lines 148-181, one turn of the loop over the rulesets. The two handlers
    catch what the process and [json.loads] raise, which is raised before the
    first [append]: the findings of the turn are the value of the block. *)
Definition scan_ruleset (env : Env) (ruleset path : string)
    (url method host timestamp : value) (extension : string) : res (list Finding) :=
  if path_exists env ruleset then
    res_except
      (stdout ← run_semgrep env ruleset path;
       res_except
         (findings_of_output env stdout url method host timestamp extension)
         (is_exn JSONDecodeError) (λ _, Ok []))
      (is_exn SubprocessError) (λ _, Ok [])
  else Ok [].

Fixpoint scan_rulesets (env : Env) (rulesets : list string) (path : string)
    (url method host timestamp : value) (extension : string)
    (findings : list Finding) : res (list Finding) :=
  match rulesets with
  | [] => Ok findings
  | ruleset :: rest =>
      new ← scan_ruleset env ruleset path url method host timestamp extension;
      scan_rulesets env rest path url method host timestamp extension (findings ++ new)
  end.

Definition run_semgrep_analysis (env : Env) (content : string)
    (url method host : value) (content_type : string) (timestamp : value)
    : M (list Finding) :=
  st ← get;
  if negb (semgrep_initialized st) then mret []
  else
    try_except
      (extension ← lift (choose_extension content_type url);
       let path := temp_file_path env extension in
       write_temp_file env path content;;
       rulesets ← lift (resolve_rulesets env extension);
       findings ← lift (if bool_decide (rulesets = []) then Ok []
                        else scan_rulesets env rulesets path url method host
                               timestamp extension []);
       try_except (unlink env path) (is_exn OSError) (λ _, mret tt);;
       mret findings)
      any_exception (λ _, mret []).

(** ** The pipeline (lines 303-386) *)

(** [record] and [headers] as the caller passes them, each a member of the
    request's JSON: a JSON object, or any other value ([None], a string, a
    number, a list). Of a value that is not an object the pipeline reads the
    truthiness and nothing else. *)
Inductive pyobj : Type :=
  | PyDict (d : dict)
  | PyOther (truthy : bool).

(** [bool(a)] *)
Definition pyobj_truthy (a : pyobj) : bool :=
  match a with
  | PyDict d => dict_truthy d
  | PyOther t => t
  end.

(** [a or {}] *)
Definition or_empty_obj (a : pyobj) : pyobj :=
  if pyobj_truthy a then a else PyDict ∅.

(** The receiver of [a.get(...)]: only a dict has the method. *)
Definition as_dict (a : pyobj) : res dict :=
  match a with
  | PyDict d => Ok d
  | PyOther _ => Raise AttributeError
  end.

(** Lines 334-343: the eligibility flags. *)
Definition is_html_flag (content_type : string) : bool := contains "html" content_type.

Definition is_js_flag (content_type : string) (url : value) : res bool :=
  if contains "javascript" content_type then Ok true
  else if contains "application/json" content_type then Ok true
  else if contains "application/x-javascript" content_type then Ok true
  else url_endswith url ".js".

Definition is_text_flag (content_type : string) (is_html is_js : bool) : bool :=
  contains "text" content_type || is_html || is_js || contains "xml" content_type.

(** [threading.Timer(2.0, lambda: remove_scanning_item(url)).start()] *)
Definition start_timer (url : value) : M unit :=
  modify (λ st, set_timers (timers st ++ [url]) st).

(** A timer fires: its callback runs on the state of that moment. *)
Definition fire_timer : M unit :=
  st ← get;
  match timers st with
  | [] => mret tt
  | url :: rest => modify (set_timers rest);; remove_scanning_item url;; mret tt
  end.

(** Lines 303-386. [record.get] of line 315 and [headers.get], which the
    call of line 330 reaches, come before the [try] of line 333. *)
Definition analyze_sast (env : Env) (record : pyobj) (body : value)
    (headers : pyobj) : M (list Finding) :=
  if negb (pyobj_truthy record) || negb (truthy body) then mret []
  else
    let headers := or_empty_obj headers in
    record ← lift (as_dict record);
    let url := dict_get record "url" (VStr "") in
    let method := dict_get record "method" (VStr "") in
    let host := dict_get record "host" (VStr "") in
    let path := dict_get record "path" (VStr "") in
    let timestamp := dict_get record "timestamp" VNone in
    let timestamp := if truthy timestamp then timestamp else VInt (now_ms env) in
    headers ← lift (as_dict headers);
    let type := get_file_type_from_content_type headers in
    add_scanning_item
      {[ "url" := url; "timestamp" := timestamp; "status" := VStr "analyzing";
         "type" := VStr (if String.eqb type "" then "unknown" else type) ]};;
    try_finally
      (try_except
         (let content_type := lower (str (dict_get headers "content-type" (VStr ""))) in
          let is_html := is_html_flag content_type in
          is_js ← lift (is_js_flag content_type url);
          let is_text := is_text_flag content_type is_html is_js in
          if negb is_text || negb (truthy body) then
            remove_scanning_item url;; mret []
          else
            let text := str (or_empty body) in
            semgrep_findings ← run_semgrep_analysis env text url method host
                                 content_type timestamp;
            let findings := [] ++ semgrep_findings in
            let findings :=
              if is_html then findings ++ analyze_html text url host path method timestamp
              else findings in
            let findings :=
              if is_js || is_html
              then findings ++ analyze_javascript text url host path method timestamp
              else findings in
            let findings := findings ++ analyze_generic text url host path method timestamp in
            update_scanning_item_status url (VStr "completed");;
            (if bool_decide (findings = []) then mret tt else add_sast_findings findings);;
            mret findings)
         any_exception
         (λ _, update_scanning_item_status url (VStr "error");; mret []))
      (start_timer url).

(** ** Vocabulary of the statements *)

(** The dict that [headers or {}] is, when it is one; [None] and a dict as
    values of [pyobj]. *)
Definition or_empty_dict (headers : pyobj) : dict :=
  match or_empty_obj headers with
  | PyDict d => d
  | PyOther _ => ∅
  end.

Definition of_option (d : option dict) : pyobj :=
  match d with
  | Some d => PyDict d
  | None => PyOther false
  end.

(** A record or headers that is truthy and not a JSON object: [record.get]
    of line 315, or [headers.get] under the call of line 330, raises before
    the item is filed and before the [try] is entered. *)
Definition not_objects (record headers : pyobj) : Prop :=
  (∀ d, record ≠ PyDict d) ∨ headers = PyOther true.

(** [n] occurs in [s]; [x] ends [s]. *)
Definition substr (n s : string) : Prop := ∃ a b, s = a +:+ n +:+ b.
Definition suffix_of (x s : string) : Prop := ∃ p, s = p +:+ x.

(** Two characters that are the same letter in either case, or equal. *)
Definition same_letter (c d : ascii) : Prop :=
  c = d
  ∨ (is_upper_ascii d = true ∧ N_of_ascii c = (N_of_ascii d + 32)%N)
  ∨ (is_upper_ascii c = true ∧ N_of_ascii d = (N_of_ascii c + 32)%N).

(** Equality of strings ignoring the case of ASCII letters. *)
Inductive eq_nocase : string → string → Prop :=
  | eq_nocase_nil : eq_nocase "" ""
  | eq_nocase_cons c d s t :
      same_letter c d → eq_nocase s t → eq_nocase (String c s) (String d t).

(** [s.isascii()] *)
Fixpoint is_ascii (s : string) : bool :=
  match s with
  | EmptyString => true
  | String c r => (N_of_ascii c <? 128)%N && is_ascii r
  end.

(** What is known of the runtime's [str.upper]: on ASCII text it is [upper].
    Beyond ASCII it follows the Unicode tables, which are not spelled out
    here. *)
Definition upper_ok (env : Env) : Prop :=
  ∀ s, is_ascii s = true → str_upper env s = upper s.

(** Two texts are equal ignoring case when their upper-case forms are the
    same text. *)
Definition same_upper (env : Env) (s t : string) : Prop :=
  str_upper env s = str_upper env t.

(** [seg] is the last segment of [s] when [s] is cut at every [sep]. *)
Definition last_segment (sep : ascii) (s seg : string) : Prop :=
  has_char sep seg = false ∧
  (s = seg ∨ ∃ p, s = p +:+ String sep seg).

(** The registry keys of a list of scanning items. *)
Definition urls (l : list dict) : list (option value) := (λ d : dict, d !! "url") <$> l.

(** Every entry of a registry has a url: [add_scanning_item] lets no other in. *)
Definition keyed (l : list dict) : Prop := Forall (λ d : dict, is_Some (d !! "url")) l.

(** Entries of [l] filed under [url]. *)
Definition entries_for (url : value) (l : list dict) : list dict :=
  filter (λ d : dict, d !! "url" = Some url) l.

(** The last [n] elements of a list. *)
Definition lastn {A} (n : nat) (l : list A) : list A := drop (length l - n) l.

(** A sequence of calls, each on the state the one before left. *)
Fixpoint calls {A B} (f : A → M B) (l : list A) : M unit :=
  match l with
  | [] => mret tt
  | x :: r => f x;; calls f r
  end.

(** [sep.join(l)], the inverse of [split] *)
Fixpoint join (sep : ascii) (l : list string) : string :=
  match l with
  | [] => ""
  | [x] => x
  | x :: r => x +:+ String sep (join sep r)
  end.

(** ** Concrete inputs *)

(** One entry of the engine's [results], as semgrep prints it. *)
Definition eval_result : json :=
  JObj [("check_id", JStr "javascript.lang.security.eval.rule");
        ("path", JStr "/srv/temp_sast/f81d4fae.js");
        ("start", JObj [("line", JNum 1); ("col", JNum 1)]);
        ("end", JObj [("line", JNum 1); ("col", JNum 16)]);
        ("extra", JObj [("message", JStr "eval of user input");
                        ("severity", JStr "WARNING");
                        ("lines", JStr "eval(userInput)")])].

Definition eval_finding : Finding :=
  {| f_type := "RULE";
     f_cveId := "[SEMGREP-javascript.lang.security.eval.rule]";
     f_severity := "HIGH";
     f_title := JStr "eval of user input";
     f_url := VStr "http://x/a.js";
     f_tech := "JS";
     f_version := VStr "x";
     f_indicator := JStr "eval(userInput)";
     f_method := VStr "GET";
     f_at := VInt 1000;
     f_source := "SEMGREP";
     f_details := {| d_rule := JStr "javascript.lang.security.eval.rule";
                     d_path := JStr "/srv/temp_sast/f81d4fae.js";
                     d_startLine := JNum 1; d_endLine := JNum 1 |} |}.

(** The registry a computation leaves when it starts from the registry
    [reg]: the registry functions read and write [sast_scanning] only. *)
Definition registry_after {A} (m : M A) (reg : list dict) : list dict :=
  sast_scanning (m (set_scanning reg initial_state)).1.

(** The registries the service can be in: empty when the module is loaded,
    then changed by the three registry functions only. *)
Inductive reachable : list dict → Prop :=
  | reach_init : reachable []
  | reach_add reg item :
      reachable reg → reachable (registry_after (add_scanning_item item) reg)
  | reach_update reg url status :
      reachable reg → reachable (registry_after (update_scanning_item_status url status) reg)
  | reach_remove reg url :
      reachable reg → reachable (registry_after (remove_scanning_item url) reg).

(** Line 265-266: the oldest entry leaves when the list is over the cap. *)
Definition capped (cap : nat) {A} (l : list A) : list A :=
  if (cap <? length l)%nat then drop 1 l else l.

(** The entries the comprehension of lines 259 and 286 keeps: those whose
    url is not equal to [url], in the sense of [!=]. *)
Definition differs (url : value) (d : dict) : bool :=
  match d !! "url" with
  | Some u => py_ne u url
  | None => true
  end.

Definition others (url : value) (l : list dict) : list dict :=
  filter (λ d : dict, differs url d = true) l.

(** The urls of a registry that are equal to themselves: all but [nan]. *)
Definition real_urls (l : list dict) : list (option value) :=
  filter (λ u, u ≠ Some VNaN) (urls l).

(** A scanning item as [analyze_sast] files it, and the same url filed
    earlier, its analysis completed. *)
Definition item_analyzing : dict :=
  {[ "url" := VStr "http://x/a.js"; "timestamp" := VInt 1000;
     "status" := VStr "analyzing"; "type" := VStr "JavaScript" ]}.

Definition item_completed : dict :=
  {[ "url" := VStr "http://x/a.js"; "timestamp" := VInt 900;
     "status" := VStr "completed"; "type" := VStr "JavaScript" ]}.

(** Two items whose url is the float [nan]. *)
Definition item_nan : dict :=
  {[ "url" := VNaN; "timestamp" := VInt 1000;
     "status" := VStr "analyzing"; "type" := VStr "Unknown" ]}.

Definition item_nan_later : dict :=
  {[ "url" := VNaN; "timestamp" := VInt 2000;
     "status" := VStr "analyzing"; "type" := VStr "Unknown" ]}.

Definition item_other : dict :=
  {[ "url" := VStr "http://x/b.html"; "timestamp" := VInt 950;
     "status" := VStr "analyzing"; "type" := VStr "HTML" ]}.

Definition state_of_registry (reg : list dict) : state := set_scanning reg initial_state.

(** The registry while the items [done] have been filed, one after the
    other: what is left of the entries from before, then a final stretch of
    [done]; an entry of [done] has left only once none from before is left
    and the registry is full. *)
Definition window (done reg : list dict) : Prop :=
  ∃ old news,
    reg = old ++ news
    ∧ news `suffix_of` done
    ∧ (old ≠ [] → news = done)
    ∧ (length reg ≤ MAX_SCANNING_ITEMS)%nat
    ∧ (news ≠ done → length reg = MAX_SCANNING_ITEMS).

(** Twenty-one items of distinct urls, and five hundred and one findings in
    two batches. *)
Definition item_numbered (n : nat) : dict :=
  <["url" := VStr ("http://x/" +:+ str_of_Z (Z.of_nat n))]> item_analyzing.

Definition finding_numbered (n : nat) : Finding :=
  {| f_type := "RULE";
     f_cveId := "[SEMGREP-javascript.lang.security.eval.rule]";
     f_severity := "HIGH";
     f_title := JStr "eval of user input";
     f_url := VStr "http://x/a.js";
     f_tech := "JS";
     f_version := VStr "x";
     f_indicator := JStr "eval(userInput)";
     f_method := VStr "GET";
     f_at := VInt (Z.of_nat n);
     f_source := "SEMGREP";
     f_details := {| d_rule := JStr "javascript.lang.security.eval.rule";
                     d_path := JStr "/srv/temp_sast/f81d4fae.js";
                     d_startLine := JNum 1; d_endLine := JNum 1 |} |}.

Definition many_items : list dict := item_numbered <$> seq 0 21.
Definition many_findings : list (list Finding) :=
  [finding_numbered <$> seq 0 300; []; finding_numbered <$> seq 300 201].

(** A request for [http://x/a.js], its headers, and an environment in which
    the disk and the engine behave. *)
Definition record_a : dict :=
  {[ "url" := VStr "http://x/a.js"; "method" := VStr "GET"; "host" := VStr "x";
     "path" := VStr "/a.js"; "timestamp" := VInt 1000 ]}.

Definition headers_js : dict := {[ "content-type" := VStr "application/javascript" ]}.
Definition headers_png : dict := {[ "content-type" := VStr "image/png" ]}.

Definition env_quiet : Env :=
  {| cwd := "/srv"; uuid4 := "f81d4fae-7dec-11d0-a765-00a0c91e6bf6"; now_ms := 2000;
     open_ok := λ _, true; write_ok := λ _ _, true; unlink_ok := λ _, true;
     listdir := λ _, Ok ["security"; "lang"; "README.md"];
     isdir := λ p, negb (endswith p ".md");
     path_exists := λ _, true;
     run_semgrep := λ _ _, Ok "{results: []}";
     json_loads := λ _, Ok (JObj [("results", JArr []); ("errors", JArr [])]);
     str_upper := upper |}.

(** The same, but the rules repository was never cloned: the directory
    [semgrep-rules/javascript] is not there and [os.listdir] raises. *)
Definition env_no_rules : Env :=
  {| cwd := cwd env_quiet; uuid4 := uuid4 env_quiet; now_ms := now_ms env_quiet;
     open_ok := open_ok env_quiet; write_ok := write_ok env_quiet;
     unlink_ok := unlink_ok env_quiet;
     listdir := λ _, Raise OSError;
     isdir := λ _, false;
     path_exists := λ _, false;
     run_semgrep := run_semgrep env_quiet;
     json_loads := json_loads env_quiet;
     str_upper := str_upper env_quiet |}.

(** The same as [env_quiet], but the engine prints a JSON object that has no
    [results] member. *)
Definition env_no_results : Env :=
  {| cwd := cwd env_quiet; uuid4 := uuid4 env_quiet; now_ms := now_ms env_quiet;
     open_ok := open_ok env_quiet; write_ok := write_ok env_quiet;
     unlink_ok := unlink_ok env_quiet;
     listdir := listdir env_quiet;
     isdir := isdir env_quiet;
     path_exists := path_exists env_quiet;
     run_semgrep := λ _ _, Ok "{errors: []}";
     json_loads := λ _, Ok (JObj [("errors", JArr [])]);
     str_upper := str_upper env_quiet |}.

(** The state once [initialize_semgrep] has found the engine. *)
Definition state_ready : state :=
  {| sast_findings := []; sast_scanning := []; semgrep_initialized := true;
     files := ∅; timers := [] |}.

(** The state a first analysis of [record_a] leaves: its scanning item is
    completed and waits for its timer. *)
Definition state_after_a : state :=
  (analyze_sast env_quiet (PyDict record_a) (VStr "eval(userInput)") (PyDict headers_js)
     initial_state).1.

(** A request for an image. *)
Definition record_png : dict :=
  {[ "url" := VStr "http://x/logo.png"; "method" := VStr "GET"; "host" := VStr "x";
     "path" := VStr "/logo.png"; "timestamp" := VInt 1000 ]}.

(** ** The rest of the module *)

Definition set_initialized (b : bool) (st : state) : state :=
  {| sast_findings := sast_findings st; sast_scanning := sast_scanning st;
     semgrep_initialized := b;
     files := files st; timers := timers st |}.

(** The classes the handler of line 51 names. *)
Definition not_installed (e : exn) : bool :=
  is_exn SubprocessError e || is_exn FileNotFoundError e.

(** Lines 37-58. [temp_exists] is [os.path.exists(TEMP_DIR)], [makedirs] what
    [os.makedirs] does when it is called, [version] what
    [subprocess.run(['semgrep', '--version'], check=True)] does. *)
Definition initialize_semgrep (temp_exists : bool) (makedirs : res unit)
    (version : res unit) : M unit :=
  try_except
    ((if negb temp_exists then lift makedirs else mret tt);;
     try_except
       (lift version;; modify (set_initialized true))
       not_installed
       (λ _, mret tt))
    any_exception
    (λ _, modify (set_initialized false)).

(** Lines 400-404: each file of the listing is unlinked, a failure is logged
    and the loop goes on. *)
Fixpoint clear_files (env : Env) (names : list string) : M unit :=
  match names with
  | [] => mret tt
  | file :: rest =>
      try_except (unlink env (path_join (TEMP_DIR env) file))
        any_exception (λ _, mret tt);;
      clear_files env rest
  end.

(** Lines 389-406. *)
Definition clear_all (env : Env) : M unit :=
  modify (set_findings []);;
  modify (set_scanning []);;
  try_except
    (if path_exists env (TEMP_DIR env) then
       names ← lift (listdir env (TEMP_DIR env));
       clear_files env names
     else mret tt)
    any_exception (λ _, mret tt).

(** What the service keeps true of its state between two calls. *)
Definition service_inv (st : state) : Prop :=
  keyed (sast_scanning st)
  ∧ NoDup (real_urls (sast_scanning st))
  ∧ (length (sast_scanning st) ≤ MAX_SCANNING_ITEMS)%nat
  ∧ (length (sast_findings st) ≤ MAX_SAST_FINDINGS)%nat.

(** The three severities of a finding. *)
Definition severities : list string := ["CRITICAL"; "HIGH"; "MEDIUM"].

(** The six display types. *)
Definition display_types : list string :=
  ["HTML"; "JavaScript"; "JSON"; "XML"; "CSS"; "Unknown"].

(** What a finding owes to the request it was made for, apart from what the
    engine reported. *)
Definition from_request (url method host timestamp : value) (extension : string)
    (f : Finding) : Prop :=
  f_url f = url ∧ f_method f = method ∧ f_at f = timestamp
  ∧ f_version f = or_empty host ∧ f_source f = "SEMGREP"
  ∧ f_tech f = upper (tail extension)
  ∧ f_severity f ∈ severities.

(** The extensions that have rules. *)
Definition supported_extensions : list string := [".js"; ".html"; ".php"; ".py"].

(** A ruleset that is not on disk, or whose engine run fails, or whose
    output does not parse: the cases lines 148, 178 and 180 let pass. *)
Definition soft_failure (env : Env) (ruleset path : string) : Prop :=
  path_exists env ruleset = false
  ∨ run_semgrep env ruleset path = Raise SubprocessError
  ∨ ∃ stdout, run_semgrep env ruleset path = Ok stdout
              ∧ json_loads env stdout = Raise JSONDecodeError.

(** An engine that reports [eval_result] for every ruleset, in a rules
    directory that lists [security] among its entries. *)
Definition env_eval : Env :=
  {| cwd := cwd env_quiet; uuid4 := uuid4 env_quiet; now_ms := now_ms env_quiet;
     open_ok := open_ok env_quiet; write_ok := write_ok env_quiet;
     unlink_ok := unlink_ok env_quiet;
     listdir := λ _, Ok ["security"; "lang"];
     isdir := λ _, true;
     path_exists := λ p, negb (endswith p "lang");
     run_semgrep := λ _ _, Ok "{results: [...]}";
     json_loads := λ _, Ok (JObj [("results", JArr [eval_result])]);
     str_upper := str_upper env_quiet |}.

(** The same engine, but its run on the [lang] rules, the second ruleset,
    prints an object without [results]. *)
Definition env_eval_then_broken : Env :=
  {| cwd := cwd env_quiet; uuid4 := uuid4 env_quiet; now_ms := now_ms env_quiet;
     open_ok := open_ok env_quiet; write_ok := write_ok env_quiet;
     unlink_ok := unlink_ok env_quiet;
     listdir := λ _, Ok ["lang"];
     isdir := λ _, true;
     path_exists := λ _, true;
     run_semgrep := λ r _, if endswith r "lang" then Ok "lang" else Ok "security";
     json_loads := λ out,
       if String.eqb out "lang" then Ok (JObj [("errors", JArr [])])
       else Ok (JObj [("results", JArr [eval_result])]);
     str_upper := str_upper env_quiet |}.

(** The scanning item [analyze_sast] files for a request (lines 326-331). *)
Definition scanning_item (env : Env) (record headers : dict) : dict :=
  let timestamp := dict_get record "timestamp" VNone in
  let type := get_file_type_from_content_type headers in
  {[ "url" := dict_get record "url" (VStr "");
     "timestamp" := if truthy timestamp then timestamp else VInt (now_ms env);
     "status" := VStr "analyzing";
     "type" := VStr (if String.eqb type "" then "unknown" else type) ]}.

(** The registry once the item of the request has been filed. *)
Definition filed (env : Env) (record headers : dict) (reg : list dict) : list dict :=
  capped MAX_SCANNING_ITEMS
    (others (dict_get record "url" (VStr "")) reg ++ [scanning_item env record headers]).

(** The content type the pipeline works with (line 334). *)
Definition content_type_of (headers : dict) : string :=
  lower (str (dict_get headers "content-type" (VStr ""))).

(** The timestamp the pipeline works with (lines 319-323). *)
Definition timestamp_of (env : Env) (record : dict) : value :=
  if truthy (dict_get record "timestamp" VNone) then dict_get record "timestamp" VNone
  else VInt (now_ms env).

(** What [service_inv] says of the registry. *)
Definition registry_ok (l : list dict) : Prop :=
  keyed l ∧ NoDup (real_urls l) ∧ (length l ≤ MAX_SCANNING_ITEMS)%nat.

(** A request whose url is a number, and JSON headers. *)
Definition record_bad_url : dict := {[ "url" := VInt 7; "method" := VStr "GET" ]}.
Definition headers_json : dict := {[ "content-type" := VStr "application/json" ]}.

(** ** The analyze route (lines 418-432) *)

(** The JSON object of the request, as far as the route reads it. A missing
    [record] is [None], as [data.get] gives it; a missing [headers] member is
    [None] here and becomes [{}] by the default of line 424. *)
Record request_data : Type := {
  rq_record : pyobj;
  rq_body : value;
  rq_headers : option pyobj
}.

(** What the route answers: the findings with status 200, or an error with
    status 400 or 500. *)
Inductive response : Type :=
  | Findings200 (findings : list Finding)
  | Error400
  | Error500 (e : exn).

(** [data] is [request.json]: [None] when the JSON of the request is not an
    object ([null], a list, a string, a number), on which [data.get] raises. *)
Definition analyze_route (env : Env) (data : option request_data) : M response :=
  try_except
    (data ← lift (match data with
                  | Some d => Ok d
                  | None => Raise AttributeError
                  end);
     let record := rq_record data in
     let body := rq_body data in
     let headers := default (PyDict ∅) (rq_headers data) in
     if negb (pyobj_truthy record) || negb (truthy body) then mret Error400
     else
       findings ← analyze_sast env record body headers;
       mret (Findings200 findings))
    any_exception
    (λ e, mret (Error500 e)).

Definition request_a : request_data :=
  {| rq_record := PyDict record_a; rq_body := VStr "eval(userInput)";
     rq_headers := Some (PyDict headers_js) |}.

(** * Properties *)

#[local] Arguments String.append !_ _ / : simpl nomatch.

(** ** Strings *)

Section PyStrFacts.

Implicit Types s p r n x : string.

Lemma app_empty_r s : s +:+ "" = s.
Proof. induction s as [|c s IH]; simpl; congruence. Qed.

Lemma app_assoc' s p r : (s +:+ p) +:+ r = s +:+ p +:+ r.
Proof. induction s as [|c s IH]; simpl; congruence. Qed.

Lemma app_length s p : String.length (s +:+ p) = (String.length s + String.length p)%nat.
Proof. induction s as [|c s IH]; simpl; congruence. Qed.

Lemma startswith_spec s p : startswith s p = true ↔ ∃ r, s = p +:+ r.
Proof.
  revert s. induction p as [|a p IH]; intros [|b s]; simpl.
  - split; [by exists "" | done].
  - split; [by eexists | done].
  - split; [done | by intros [r Hr]].
  - destruct (Ascii.eqb_spec a b) as [->|Hne].
    + rewrite IH. split; intros [r Hr]; exists r; congruence.
    + split; [done | intros [r Hr]; congruence].
Qed.

Lemma contains_spec n s : contains n s = true ↔ substr n s.
Proof.
  unfold substr. induction s as [|c s IH].
  - cbn [contains]. rewrite orb_false_r, startswith_spec. split.
    + intros [r Hr]. by exists "", r.
    + intros ([|a0 a] & b & Hab); [by exists b | done].
  - cbn [contains]. rewrite orb_true_iff, startswith_spec, IH. split.
    + intros [[r Hr] | (a & b & Hab)].
      * by exists "", r.
      * exists (String c a), b. simpl. congruence.
    + intros ([|a0 a] & b & Hab).
      * left. by exists b.
      * right. exists a, b. simpl in Hab. congruence.
Qed.

Lemma endswith_spec s x : endswith s x = true ↔ suffix_of x s.
Proof.
  unfold suffix_of. induction s as [|c s IH].
  - cbn [endswith]. rewrite orb_false_r, String.eqb_eq. split.
    + intros <-. by exists "".
    + intros ([|a0 a] & Ha); simpl in Ha; [done | discriminate].
  - cbn [endswith]. rewrite orb_true_iff, String.eqb_eq, IH. split.
    + intros [<- | (p & Hp)]; [by exists "" |].
      exists (String c p). simpl. congruence.
    + intros ([|a0 a] & Ha); simpl in Ha; [by left |].
      right. exists a. congruence.
Qed.

Lemma contains_false n s : contains n s = false ↔ ¬ substr n s.
Proof. rewrite <- contains_spec. by destruct (contains n s). Qed.

Lemma endswith_false s x : endswith s x = false ↔ ¬ suffix_of x s.
Proof. rewrite <- endswith_spec. by destruct (endswith s x). Qed.

(** A suffix no longer than [p] is found in [p] alone. *)
Lemma endswith_app s p x :
  (String.length x ≤ String.length p)%nat → endswith (s +:+ p) x = endswith p x.
Proof.
  intros Hlen. induction s as [|c s IH]; [done |].
  cbn [String.append endswith]. rewrite IH.
  destruct (String.eqb_spec (String c (s +:+ p)) x) as [Heq|]; [|done].
  apply (f_equal String.length) in Heq. simpl in Heq. rewrite app_length in Heq. lia.
Qed.

Lemma split_nonempty sep s : split sep s ≠ [].
Proof.
  destruct s as [|c s]; simpl; [done |].
  destruct (Ascii.eqb c sep); [done |]. by destruct (split sep s).
Qed.

Lemma split_no_sep sep s : Forall (λ x, has_char sep x = false) (split sep s).
Proof.
  induction s as [|c s IH]; simpl.
  - by constructor.
  - destruct (Ascii.eqb_spec c sep) as [->|Hne]; [by constructor |].
    destruct (split sep s) as [|h t]; constructor; simpl.
    + rewrite orb_false_r. apply Ascii.eqb_neq. congruence.
    + constructor.
    + apply Forall_cons in IH as [-> _]. rewrite orb_false_r.
      apply Ascii.eqb_neq. congruence.
    + by apply Forall_cons in IH as [_ ?].
Qed.

Lemma join_split sep s : join sep (split sep s) = s.
Proof.
  induction s as [|c s IH]; simpl; [done |].
  destruct (Ascii.eqb_spec c sep) as [->|Hne].
  - pose proof (split_nonempty sep s).
    destruct (split sep s) as [|h t]; [done |]. cbn [join] in *.
    simpl. by rewrite IH.
  - pose proof (split_nonempty sep s).
    destruct (split sep s) as [|h t]; [done |].
    destruct t as [|h' t]; simpl in *; congruence.
Qed.

Lemma join_last sep (l : list string) seg :
  last l = Some seg → join sep l = seg ∨ ∃ p, join sep l = p +:+ String sep seg.
Proof.
  induction l as [|a l IH]; [done |].
  destruct l as [|b l].
  - simpl. intros [= ->]. by left.
  - intros Hl. change (last (a :: b :: l)) with (last (b :: l)) in Hl.
    change (join sep (a :: b :: l)) with (a +:+ String sep (join sep (b :: l))).
    destruct (IH Hl) as [-> | (p & ->)].
    + right. by exists a.
    + right. exists (a +:+ String sep p). by rewrite app_assoc'.
Qed.

(** [s.split(sep)[-1]] is the last segment of [s], and is always there. *)
Lemma split_last_segment sep s :
  ∃ seg, last_item (split sep s) = Ok seg ∧ last_segment sep s seg.
Proof.
  unfold last_item. destruct (last (split sep s)) as [seg|] eqn:Hl.
  - exists seg. split; [done |]. split.
    + pose proof (split_no_sep sep s) as Hall.
      rewrite Forall_forall in Hall. apply Hall.
      apply last_Some in Hl as [l' ->]. set_solver.
    + pose proof (join_last sep _ _ Hl) as Hj. by rewrite join_split in Hj.
  - apply last_None in Hl. by apply split_nonempty in Hl.
Qed.

End PyStrFacts.

(** ** Letter case *)

Section LetterCase.

Lemma ascii_eq_N c d : c = d ↔ N_of_ascii c = N_of_ascii d.
Proof.
  split; [by intros -> |]. intros H.
  rewrite <- (ascii_N_embedding c), <- (ascii_N_embedding d). by rewrite H.
Qed.

Lemma N_of_upper_ascii c :
  N_of_ascii (upper_ascii c) =
    if is_lower_ascii c then (N_of_ascii c - 32)%N else N_of_ascii c.
Proof.
  unfold upper_ascii. destruct (is_lower_ascii c); [|done].
  apply N_ascii_embedding. pose proof (N_ascii_bounded c). lia.
Qed.

Lemma upper_ascii_same_letter c d : upper_ascii c = upper_ascii d ↔ same_letter c d.
Proof.
  unfold same_letter. rewrite !ascii_eq_N, !N_of_upper_ascii.
  unfold is_lower_ascii, is_upper_ascii. cbv zeta.
  rewrite !andb_true_iff, !N.leb_le.
  destruct (N.leb_spec 97 (N_of_ascii c)), (N.leb_spec (N_of_ascii c) 122),
           (N.leb_spec 97 (N_of_ascii d)), (N.leb_spec (N_of_ascii d) 122);
    cbn [andb]; lia.
Qed.

Lemma upper_eq_nocase (s t : string) : upper s = upper t ↔ eq_nocase s t.
Proof.
  revert t. induction s as [|c s IH]; intros [|d t]; cbn [upper].
  - split; [constructor | done].
  - split; [done | inversion 1].
  - split; [done | inversion 1].
  - split.
    + intros [= Hc Hs]. constructor; [by apply upper_ascii_same_letter | by apply IH].
    + inversion 1; subst. f_equal; [by apply upper_ascii_same_letter | by apply IH].
Qed.

End LetterCase.

(** ** Severity mapping *)

Lemma severity_of_upper (env : Env) (s : string) :
  map_semgrep_severity_to_sast_severity env (JStr s) =
    Ok (if decide (s = "") then "MEDIUM"
        else if decide (str_upper env s = "ERROR") then "CRITICAL"
        else if decide (str_upper env s = "WARNING") then "HIGH" else "MEDIUM").
Proof.
  unfold map_semgrep_severity_to_sast_severity. cbn [json_truthy].
  destruct (String.eqb_spec s "") as [-> | Hne]; cbn [negb]; [done |].
  rewrite decide_False by done.
  cbn [json_str mbind res_bind]. unfold severity_map.
  rewrite !lookup_insert, lookup_singleton.
  repeat case_decide; simplify_eq; try done.
Qed.

(** C5. A severity that equals ERROR, WARNING or INFO when case is ignored
    maps to CRITICAL, HIGH and MEDIUM; every other string, and [None], maps
    to MEDIUM. Ignoring case is comparing the upper-case forms; between two
    ASCII texts that is equality letter by letter, up to the case of each. *)
Theorem severity_mapping (env : Env) (s : string) :
  upper_ok env →
    (same_upper env s "ERROR" →
       map_semgrep_severity_to_sast_severity env (JStr s) = Ok "CRITICAL")
  ∧ (same_upper env s "WARNING" →
       map_semgrep_severity_to_sast_severity env (JStr s) = Ok "HIGH")
  ∧ (same_upper env s "INFO" →
       map_semgrep_severity_to_sast_severity env (JStr s) = Ok "MEDIUM")
  ∧ (¬ same_upper env s "ERROR" → ¬ same_upper env s "WARNING" →
     ¬ same_upper env s "INFO" →
       map_semgrep_severity_to_sast_severity env (JStr s) = Ok "MEDIUM")
  ∧ map_semgrep_severity_to_sast_severity env JNull = Ok "MEDIUM"
  ∧ (∀ t, is_ascii s = true → is_ascii t = true → same_upper env s t ↔ eq_nocase s t).
Proof.
  intros Hup. unfold same_upper. rewrite severity_of_upper.
  rewrite (Hup "ERROR"), (Hup "WARNING"), (Hup "INFO") by reflexivity.
  change (upper "ERROR") with "ERROR". change (upper "WARNING") with "WARNING".
  change (upper "INFO") with "INFO".
  pose proof (Hup "" eq_refl) as Hnil. change (upper "") with "" in Hnil.
  split; [| split; [| split; [| split; [| split]]]];
    try (intros; repeat case_decide; congruence); [done |].
  intros t Hs Ht. by rewrite (Hup s), (Hup t), upper_eq_nocase.
Qed.

(** The four cases on an engine whose runtime is asked ASCII text only. *)
Lemma severity_mapping_witness :
    map_semgrep_severity_to_sast_severity env_quiet (JStr "error") = Ok "CRITICAL"
  ∧ map_semgrep_severity_to_sast_severity env_quiet (JStr "Warning") = Ok "HIGH"
  ∧ map_semgrep_severity_to_sast_severity env_quiet (JStr "info") = Ok "MEDIUM"
  ∧ map_semgrep_severity_to_sast_severity env_quiet (JStr "note") = Ok "MEDIUM"
  ∧ map_semgrep_severity_to_sast_severity env_quiet JNull = Ok "MEDIUM"
  ∧ (same_upper env_quiet "Warning" "WARNING" ↔ eq_nocase "Warning" "WARNING").
Proof.
  assert (upper_ok env_quiet) as Hup by (intros s Hs; reflexivity).
  destruct (severity_mapping env_quiet "error" Hup) as (Herror & _).
  destruct (severity_mapping env_quiet "Warning" Hup) as (_ & Hwarning & _ & _ & Hnone & Hascii).
  destruct (severity_mapping env_quiet "info" Hup) as (_ & _ & Hinfo & _).
  destruct (severity_mapping env_quiet "note" Hup) as (_ & _ & _ & Hother & _).
  split; [apply Herror; vm_compute; reflexivity |].
  split; [apply Hwarning; vm_compute; reflexivity |].
  split; [apply Hinfo; vm_compute; reflexivity |].
  split; [apply Hother; vm_compute; discriminate |].
  split; [exact Hnone |].
  apply Hascii; vm_compute; reflexivity.
Defined.

(** ** Content classification *)

(** C7. The extension of the scratch file: the first content-type word that
    matches, among html, javascript, json, php, python in this order; failing
    that the suffix of the url among .js, .php, .py; failing that .txt. *)
Theorem extension_priority (content_type url : string) :
  let ext := choose_extension content_type (VStr url) in
  let ct w := substr w content_type in
  let no_ct := ¬ ct "html" ∧ ¬ ct "javascript" ∧ ¬ ct "json" ∧ ¬ ct "php" ∧ ¬ ct "python" in
    (ct "html" → ext = Ok ".html")
  ∧ (¬ ct "html" → ct "javascript" → ext = Ok ".js")
  ∧ (¬ ct "html" → ¬ ct "javascript" → ct "json" → ext = Ok ".json")
  ∧ (¬ ct "html" → ¬ ct "javascript" → ¬ ct "json" → ct "php" → ext = Ok ".php")
  ∧ (¬ ct "html" → ¬ ct "javascript" → ¬ ct "json" → ¬ ct "php" → ct "python" →
       ext = Ok ".py")
  ∧ (no_ct → suffix_of ".js" url → ext = Ok ".js")
  ∧ (no_ct → ¬ suffix_of ".js" url → suffix_of ".php" url → ext = Ok ".php")
  ∧ (no_ct → ¬ suffix_of ".js" url → ¬ suffix_of ".php" url → suffix_of ".py" url →
       ext = Ok ".py")
  ∧ (no_ct → ¬ suffix_of ".js" url → ¬ suffix_of ".php" url → ¬ suffix_of ".py" url →
       ext = Ok ".txt").
Proof.
  cbv zeta. unfold choose_extension, url_endswith. cbn [value_str mbind res_bind].
  rewrite <- !contains_spec, <- !endswith_spec.
  destruct (contains "html" content_type); [intuition congruence |].
  destruct (contains "javascript" content_type); [intuition congruence |].
  destruct (contains "json" content_type); [intuition congruence |].
  destruct (contains "php" content_type); [intuition congruence |].
  destruct (contains "python" content_type); [intuition congruence |].
  destruct (endswith url ".js"); [intuition congruence |].
  destruct (endswith url ".php"); [intuition congruence |].
  destruct (endswith url ".py"); intuition congruence.
Qed.

(** ** Ruleset resolution *)

Section Rulesets.

Variable env : Env.

Lemma collect_directories (path : string) (items : list string) (acc : list string) :
  foldl (λ (rulesets : list string) (item : string),
           let item_path := path_join path item in
           if isdir env item_path then rulesets ++ [item_path] else rulesets)
        acc items
  = acc ++ filter (λ p, isdir env p = true) (path_join path <$> items).
Proof.
  revert acc. induction items as [|item items IH]; intros acc; cbn [foldl fmap list_fmap].
  - by rewrite filter_nil, app_nil_r.
  - rewrite IH. cbv zeta. rewrite filter_cons.
    destruct (isdir env (path_join path item)) eqn:Hd.
    + rewrite decide_True by done. by rewrite <- app_assoc.
    + by rewrite decide_False by done.
Qed.

Lemma language_rulesets_listing (language : string) (items : list string) :
  let base := RULES_DIR env +:+ "/" +:+ language in
  listdir env base = Ok items →
  language_rulesets env language =
    Ok ((base +:+ "/security") :: filter (λ p, isdir env p = true) (path_join base <$> items)).
Proof.
  cbv zeta. intros Hl. unfold language_rulesets. cbv zeta. rewrite Hl.
  cbn [mbind res_bind]. by rewrite collect_directories.
Qed.

(** Joining a name to the rules directory of a language puts one slash
    between them. *)
Lemma path_join_language (language item : string) :
  language ∈ ["javascript"; "html"; "php"; "python"] →
  startswith item "/" = false →
  path_join (RULES_DIR env +:+ "/" +:+ language) item
    = (RULES_DIR env +:+ "/" +:+ language) +:+ "/" +:+ item.
Proof.
  intros Hlang Hitem. unfold path_join. rewrite Hitem.
  assert (endswith (RULES_DIR env +:+ "/" +:+ language) "/" = false) as ->.
  { rewrite endswith_app; [| simpl; lia].
    set_unfold in Hlang. by destruct_or!; subst. }
  destruct (String.eqb_spec (RULES_DIR env +:+ "/" +:+ language) "") as [He|]; [|done].
  apply (f_equal String.length) in He. rewrite app_length in He. simpl in He. lia.
Qed.

End Rulesets.

(** C8. An extension other than .js, .html, .php, .py resolves to no ruleset.
    For a supported one, with [items] the listing of the language's rules
    directory [base], the rulesets are [base/security] and then, in the order
    of the listing, every listed name that is a directory; a listed directory
    named security is therefore there a second time. *)
Theorem ruleset_resolution (env : Env) (extension : string) :
    (extension ∉ [".js"; ".html"; ".php"; ".py"] → resolve_rulesets env extension = Ok [])
  ∧ (∀ language items,
       (extension, language) ∈
         [(".js", "javascript"); (".html", "html"); (".php", "php"); (".py", "python")] →
       let base := RULES_DIR env +:+ "/" +:+ language in
       let dirs := filter (λ p, isdir env p = true) (path_join base <$> items) in
       listdir env base = Ok items →
       resolve_rulesets env extension = Ok ((base +:+ "/security") :: dirs)
       ∧ ("security" ∈ items → isdir env (base +:+ "/security") = true →
            base +:+ "/security" ∈ dirs)).
Proof.
  split.
  - rewrite !not_elem_of_cons. intros (H1 & H2 & H3 & H4 & _).
    unfold resolve_rulesets.
    by rewrite (proj2 (String.eqb_neq _ _) H1), (proj2 (String.eqb_neq _ _) H2),
               (proj2 (String.eqb_neq _ _) H3), (proj2 (String.eqb_neq _ _) H4).
  - intros language items Hin base dirs Hl. split.
    + set_unfold in Hin.
      subst dirs base.
      destruct Hin as [Hin | [Hin | [Hin | [Hin | []]]]]; injection Hin as -> ->;
        by apply language_rulesets_listing.
    + intros Hsec Hdir. subst dirs. apply list_elem_of_filter. split; [done |].
      apply list_elem_of_fmap. exists "security". split; [| done].
      subst base. rewrite path_join_language; [done | | done].
      set_unfold.
      destruct Hin as [Hin | [Hin | [Hin | [Hin | []]]]]; injection Hin as _ ->; tauto.
Qed.

(** ** Normalising an engine result *)

(** Peels the successful steps off a computation in [res] that ended well. *)
Ltac unbind H :=
  repeat match type of H with
    | mbind _ ?m = Ok _ =>
        let E := fresh "E" in
        destruct m eqn:E; cbn [mbind res_bind] in H; [| discriminate H]
    end.

(** Every extension the invoker chooses starts with a dot. *)
Lemma choose_extension_dotted (content_type : string) (url : value) (extension : string) :
  choose_extension content_type url = Ok extension →
  ∃ t, extension = String "." t.
Proof.
  unfold choose_extension. intros H.
  repeat match type of H with
    | (if ?b then _ else _) = _ => destruct b
    | mbind _ ?m = Ok _ => destruct m; cbn [mbind res_bind] in H; [| discriminate H]
    end; injection H as <-; by eexists.
Qed.

(** C6. In the finding made from an engine result: the type is the last
    dot-delimited segment of the rule id in upper case, the cveId is the rule
    id between "[SEMGREP-" and "]", the tech is the extension without its
    leading dot in upper case. *)
Theorem finding_fields (env : Env) (finding : json) (url method host timestamp : value)
    (extension : string) (f : Finding) :
  finding_of_result env finding url method host timestamp extension = Ok f →
  ∃ rule segment,
    json_item finding "check_id" = Ok (JStr rule)
    ∧ last_segment "." rule segment
    ∧ f_type f = str_upper env segment
    ∧ (upper_ok env → is_ascii segment = true → f_type f = upper segment)
    ∧ f_cveId f = "[SEMGREP-" +:+ rule +:+ "]"
    ∧ f_tech f = upper (tail extension)
    ∧ (∀ t, extension = String "." t → f_tech f = upper t).
Proof.
  unfold finding_of_result. intros H. unbind H.
  injection H as <-. cbn [f_type f_cveId f_tech].
  match goal with E : json_str ?j = Ok ?r |- _ =>
    destruct j; try discriminate E; injection E as -> end.
  match goal with E : last_item (split _ ?r) = Ok ?seg |- _ =>
    destruct (split_last_segment "." r) as (seg' & Hseg & Hlast);
    rewrite Hseg in E; injection E as -> end.
  eexists _, _. split; [done |]. split; [exact Hlast |].
  split; [done |]. split; [intros Hup Ha; by apply Hup |].
  repeat split. by intros t ->.
Qed.

Lemma finding_fields_witness :
  finding_of_result env_quiet eval_result (VStr "http://x/a.js") (VStr "GET") (VStr "x")
    (VInt 1000) ".js" = Ok eval_finding
  ∧ ∃ rule segment,
      json_item eval_result "check_id" = Ok (JStr rule)
      ∧ last_segment "." rule segment
      ∧ f_type eval_finding = str_upper env_quiet segment
      ∧ (upper_ok env_quiet → is_ascii segment = true → f_type eval_finding = upper segment)
      ∧ f_cveId eval_finding = "[SEMGREP-" +:+ rule +:+ "]"
      ∧ f_tech eval_finding = upper (tail ".js")
      ∧ (∀ t, ".js" = String "." t → f_tech eval_finding = upper t).
Proof.
  split; [vm_compute; reflexivity |].
  apply (finding_fields env_quiet eval_result (VStr "http://x/a.js") (VStr "GET") (VStr "x")
           (VInt 1000) ".js" eval_finding).
  vm_compute; reflexivity.
Defined.

(** ** The scanning registry *)

Section Registry.

Implicit Types (reg l : list dict) (item e : dict) (url status : value) (st : state).

(** [==] is equality, except that [nan] is equal to nothing. *)
Lemma py_eq_true (v w : value) : py_eq v w = true ↔ v = w ∧ w ≠ VNaN.
Proof.
  unfold py_eq. destruct v, w; rewrite ?bool_decide_eq_true;
    split; try done; try (by intros [? ?]); by intros ->.
Qed.

Lemma py_eq_refl (v : value) : v ≠ VNaN → py_eq v v = true.
Proof. intros H. by apply py_eq_true. Qed.

Lemma py_eq_nan (v : value) : py_eq v VNaN = false.
Proof. by destruct v. Qed.

Lemma py_ne_false (v w : value) : py_ne v w = false ↔ v = w ∧ w ≠ VNaN.
Proof. unfold py_ne. by rewrite negb_false_iff, py_eq_true. Qed.

Lemma set_first_status_spec url status l :
  let l' := (set_first_status url status l).1 in
  l' = l
  ∨ ∃ i e, l !! i = Some e
      ∧ e !! "url" = Some url
      ∧ url ≠ VNaN
      ∧ (∀ j e', (j < i)%nat → l !! j = Some e' → e' !! "url" ≠ Some url)
      ∧ l' = <[i := <["status" := status]> e]> l.
Proof.
  cbv zeta. induction l as [|item rest IH]; [by left |].
  cbn [set_first_status]. unfold dict_item.
  destruct (item !! "url") as [u|] eqn:Hu; [| by left].
  destruct (py_eq u url) eqn:Heq.
  - apply py_eq_true in Heq as [-> Hnan]. right. exists 0%nat, item.
    split; [done |]. split; [done |]. split; [done |]. split; [| done].
    intros j e' Hj. lia.
  - destruct (set_first_status url status rest) as [rest' r] eqn:Hrest.
    cbn [fst] in *.
    destruct IH as [-> | (i & e & Hi & He & Hnan & Hfirst & ->)]; [by left |].
    right. exists (S i), e. split; [done |]. split; [done |]. split; [done |].
    split; [| done].
    intros [|j] e' Hj Hl; cbn in Hl.
    + injection Hl as <-. rewrite Hu. intros [= ->].
      by rewrite py_eq_refl in Heq.
    + apply (Hfirst j); [lia | done].
Qed.

Lemma update_scanning_item_status_state url status st :
  (update_scanning_item_status url status st).1
  = set_scanning (set_first_status url status (sast_scanning st)).1 st.
Proof.
  unfold update_scanning_item_status.
  by destruct (set_first_status url status (sast_scanning st)).
Qed.

End Registry.

(** C10. [update_scanning_item_status] leaves the rest of the state alone,
    keeps the length and the order of the registry, keeps every field other
    than status of every entry, changes no entry but the first one filed
    under the url, whose status it sets, and changes nothing when no entry is
    filed under the url. *)
Theorem status_update_frame (st : state) (url status : value) :
  let st' := (update_scanning_item_status url status st).1 in
  let reg := sast_scanning st in
  let reg' := sast_scanning st' in
    st' = set_scanning reg' st
  ∧ length reg' = length reg
  ∧ (∀ k : string, k ≠ "status" →
       (λ d : dict, d !! k) <$> reg' = (λ d : dict, d !! k) <$> reg)
  ∧ (∀ i e, reg !! i = Some e →
       reg' !! i = Some e
       ∨ (reg' !! i = Some (<["status" := status]> e)
          ∧ e !! "url" = Some url
          ∧ ∀ j e', (j < i)%nat → reg !! j = Some e' →
              e' !! "url" ≠ Some url ∧ reg' !! j = Some e'))
  ∧ ((∀ e, e ∈ reg → e !! "url" ≠ Some url) → reg' = reg).
Proof.
  cbv zeta. rewrite update_scanning_item_status_state. cbn [sast_scanning set_scanning].
  split; [done |].
  destruct (set_first_status_spec url status (sast_scanning st))
    as [-> | (i & e & Hi & He & _ & Hfirst & ->)].
  { repeat split; try done. intros i e Hi. by left. }
  pose proof (lookup_lt_Some _ _ _ Hi) as Hlt.
  split; [by rewrite length_insert |]. split; [| split].
  - intros k Hk. rewrite list_fmap_insert, lookup_insert_ne by done.
    apply list_insert_id. by rewrite list_lookup_fmap, Hi.
  - intros i' e0 Hi'. destruct (decide (i' = i)) as [-> | Hne].
    + right. assert (e0 = e) as -> by congruence.
      split; [by apply list_lookup_insert_eq |]. split; [done |].
      intros j e' Hj Hl. split; [by apply (Hfirst j) |].
      rewrite list_lookup_insert_ne by lia. done.
    + left. by rewrite list_lookup_insert_ne.
  - intros Hnone. exfalso. apply (Hnone e); [| done].
    apply list_elem_of_lookup. by exists i.
Qed.

(** ** Upsert and removal by url *)

Section RegistryOps.

Implicit Types (reg l : list dict) (item e : dict) (url status : value) (st : state).

Lemma without_url_keyed url l : keyed l → without_url url l = Ok (others url l).
Proof.
  unfold keyed, others. induction 1 as [|scan rest [u Hu] _ IH]; [done |].
  cbn [without_url]. unfold dict_item. rewrite Hu, IH. cbn [mbind res_bind].
  assert (differs url scan = py_ne u url) as Hd by (unfold differs; by rewrite Hu).
  rewrite filter_cons.
  destruct (py_ne u url);
    [rewrite decide_True by congruence | rewrite decide_False by congruence]; done.
Qed.

Lemma keyed_others url l : keyed l → keyed (others url l).
Proof.
  unfold keyed, others. rewrite !Forall_forall. intros H d Hd.
  apply list_elem_of_filter in Hd as [_ Hd]. by apply H.
Qed.

Lemma keyed_capped cap l : keyed l → keyed (capped cap l).
Proof. unfold keyed, capped. case_match; [apply Forall_drop | done]. Qed.

Lemma urls_others_sublist url l : urls (others url l) `sublist_of` urls l.
Proof. unfold urls, others. apply fmap_sublist, sublist_filter. Qed.

Lemma urls_capped_sublist cap l : urls (capped cap l) `sublist_of` urls l.
Proof. unfold urls, capped. case_match; [apply fmap_sublist, sublist_drop | done]. Qed.

Lemma not_in_urls_others url l : url ≠ VNaN → Some url ∉ urls (others url l).
Proof.
  intros Hnan. unfold urls, others. rewrite list_elem_of_fmap. intros (d & Hd & Hin).
  apply list_elem_of_filter in Hin as [Hne _]. unfold differs, py_ne in Hne.
  by rewrite <- Hd, py_eq_refl in Hne.
Qed.

Lemma filter_sublist_mono {A} (P : A → Prop) `{!∀ x, Decision (P x)} (l k : list A) :
  l `sublist_of` k → filter P l `sublist_of` filter P k.
Proof.
  induction 1 as [| x l k _ IH | x l k _ IH]; [done | |].
  - rewrite !filter_cons. case_decide; [by constructor | done].
  - rewrite filter_cons. case_decide; [by constructor | done].
Qed.

Lemma real_urls_sublist l k :
  urls l `sublist_of` urls k → real_urls l `sublist_of` real_urls k.
Proof. apply filter_sublist_mono. Qed.

Lemma real_urls_app l k : real_urls (l ++ k) = real_urls l ++ real_urls k.
Proof. unfold real_urls, urls. by rewrite fmap_app, filter_app. Qed.

Lemma real_urls_in url l : Some url ∈ real_urls l ↔ Some url ∈ urls l ∧ url ≠ VNaN.
Proof.
  unfold real_urls. rewrite list_elem_of_filter. split; intros [H1 H2]; split;
    try done; congruence.
Qed.

Lemma length_others url l : (length (others url l) ≤ length l)%nat.
Proof. apply length_filter. Qed.

(** Filing [item] keeps the urls other than [nan] apart. *)
Lemma real_urls_upsert item url l :
  item !! "url" = Some url → NoDup (real_urls l) →
  NoDup (real_urls (capped MAX_SCANNING_ITEMS (others url l ++ [item]))).
Proof.
  intros Hurl Hnd.
  eapply sublist_NoDup; [| apply real_urls_sublist, urls_capped_sublist].
  rewrite real_urls_app. apply NoDup_app. split; [| split].
  - eapply sublist_NoDup; [exact Hnd | apply real_urls_sublist, urls_others_sublist].
  - intros x Hx Hin. unfold real_urls in Hin.
    apply list_elem_of_filter in Hin as [Hreal Hin].
    apply list_elem_of_fmap in Hin as (d & -> & Hd).
    apply list_elem_of_singleton in Hd as ->. rewrite Hurl in Hx, Hreal.
    apply real_urls_in in Hx as [Hx Hnan]. by apply (not_in_urls_others url l).
  - unfold real_urls. apply NoDup_filter, NoDup_singleton.
Qed.

Lemma entries_for_none url l : Some url ∉ urls l → entries_for url l = [].
Proof.
  unfold urls, entries_for. intros Hnot. induction l as [|d l IH]; [done |].
  rewrite fmap_cons, not_elem_of_cons in Hnot. destruct Hnot as [Hd Hl].
  rewrite filter_cons, decide_False by congruence. by apply IH.
Qed.

Lemma pop0_capped {A} (cap : nat) (l : list A) :
  (cap < length l)%nat → pop0 l = Ok (capped cap l).
Proof.
  intros Hlen. unfold capped. rewrite (proj2 (Nat.ltb_lt _ _) Hlen).
  destruct l; [cbn in Hlen; lia | done].
Qed.

Lemma add_scanning_item_keyed item url st :
  item !! "url" = Some url → keyed (sast_scanning st) →
  let reg := capped MAX_SCANNING_ITEMS (others url (sast_scanning st) ++ [item]) in
  add_scanning_item item st = (set_scanning reg st, Ok reg).
Proof.
  intros Hurl Hkeyed reg. unfold add_scanning_item.
  assert (dict_truthy item = true) as Htruthy.
  { unfold dict_truthy. rewrite bool_decide_eq_false_2; [done |].
    intros ->. by rewrite lookup_empty in Hurl. }
  unfold mbind, M_bind, bind, get, lift, modify, mret, M_ret, ret, dict_item.
  rewrite Htruthy, Hurl. rewrite bool_decide_eq_true_2 by eauto. cbn [negb orb].
  rewrite without_url_keyed by done. cbn [sast_scanning set_scanning].
  subst reg. unfold capped at 1 2.
  destruct (Nat.ltb_spec MAX_SCANNING_ITEMS (length (others url (sast_scanning st) ++ [item])))
    as [Hlt | Hle].
  - rewrite (pop0_capped MAX_SCANNING_ITEMS) by done. unfold capped.
    by rewrite (proj2 (Nat.ltb_lt _ _) Hlt).
  - done.
Qed.

Lemma remove_scanning_item_keyed url st :
  keyed (sast_scanning st) →
  remove_scanning_item url st
  = (set_scanning (others url (sast_scanning st)) st, Ok (others url (sast_scanning st))).
Proof.
  intros Hkeyed. unfold remove_scanning_item.
  unfold mbind, M_bind, bind, get, lift, modify, mret, M_ret, ret.
  by rewrite without_url_keyed.
Qed.

Lemma urls_set_first_status url status l :
  urls (set_first_status url status l).1 = urls l.
Proof.
  unfold urls.
  destruct (set_first_status_spec url status l) as [-> | (i & e & Hi & He & _ & _ & ->)];
    [done |].
  rewrite list_fmap_insert, lookup_insert_ne by done.
  apply list_insert_id. by rewrite list_lookup_fmap, Hi.
Qed.

Lemma keyed_urls l : keyed l ↔ Forall is_Some (urls l).
Proof. unfold keyed, urls. by rewrite Forall_fmap. Qed.

(** What holds of the registry from the moment the module is loaded:
    every entry has a url, no url that is equal to itself is filed twice, the
    cap is respected. *)
Lemma registry_invariant reg :
  reachable reg →
  keyed reg ∧ NoDup (real_urls reg) ∧ (length reg ≤ MAX_SCANNING_ITEMS)%nat.
Proof.
  induction 1 as [| reg item _ (Hk & Hnd & Hlen) | reg url status _ (Hk & Hnd & Hlen)
                 | reg url _ (Hk & Hnd & Hlen)]; unfold registry_after.
  - split; [constructor |]. split; [constructor | cbn; lia].
  - destruct (item !! "url") as [url|] eqn:Hurl.
    + rewrite (add_scanning_item_keyed item url) by done. cbn [fst sast_scanning set_scanning].
      split; [| split].
      * apply keyed_capped, Forall_app. split; [by apply keyed_others |].
        by constructor; [eexists | constructor].
      * by apply real_urls_upsert.
      * pose proof (length_others url reg) as Hf.
        unfold capped.
        destruct (Nat.ltb_spec MAX_SCANNING_ITEMS (length (others url reg ++ [item])))
          as [Hlt | Hle]; [| done].
        rewrite length_drop, length_app. cbn [length]. lia.
    + unfold add_scanning_item, mbind, M_bind, bind, get, mret, M_ret, ret.
      cbn [sast_scanning set_scanning initial_state].
      rewrite (bool_decide_eq_false_2 (is_Some (item !! "url")))
        by (rewrite Hurl; by intros [? ?]).
      rewrite orb_true_r. by cbn.
  - rewrite update_scanning_item_status_state. cbn [sast_scanning set_scanning initial_state].
    split; [| split].
    + by rewrite keyed_urls, urls_set_first_status, <- keyed_urls.
    + unfold real_urls. by rewrite urls_set_first_status.
    + rewrite <- (length_fmap (λ d : dict, d !! "url")).
      fold (urls (set_first_status url status reg).1).
      rewrite urls_set_first_status. unfold urls. by rewrite length_fmap.
  - rewrite remove_scanning_item_keyed by done. cbn [fst sast_scanning set_scanning].
    split; [by apply keyed_others |]. split.
    + eapply sublist_NoDup; [exact Hnd | apply real_urls_sublist, urls_others_sublist].
    + pose proof (length_others url reg). lia.
Qed.

End RegistryOps.

Lemma entries_for_capped_upsert (url : value) (item : dict) (l : list dict) :
  item !! "url" = Some url → url ≠ VNaN →
  entries_for url (capped MAX_SCANNING_ITEMS (others url l ++ [item])) = [item].
Proof.
  intros Hurl Hnan. pose proof (not_in_urls_others url l Hnan) as Hnot.
  assert (entries_for url [item] = [item]) as Hitem.
  { unfold entries_for. by rewrite filter_cons, decide_True. }
  unfold capped.
  destruct (Nat.ltb_spec MAX_SCANNING_ITEMS (length (others url l ++ [item]))) as [Hlt | Hle].
  - destruct (others url l) as [|o os].
    + cbn in Hlt. unfold MAX_SCANNING_ITEMS in Hlt. lia.
    + cbn [app drop]. unfold entries_for in *. rewrite drop_0, filter_app.
      fold (entries_for url os). rewrite entries_for_none, Hitem; [done |].
      unfold urls in *. rewrite fmap_cons, not_elem_of_cons in Hnot. tauto.
  - unfold entries_for in *. rewrite filter_app. fold (entries_for url (others url l)).
    by rewrite entries_for_none, Hitem.
Qed.

(** C3. After [add_scanning_item] of an item whose url is equal to itself
    (any url but [nan]), on a registry whose entries all have a url, the
    registry holds exactly one entry under that url, the item itself; urls
    that were filed once stay filed once, and in every registry the service
    can reach no url that is equal to itself is filed twice. *)
Theorem upsert_by_url (st : state) (item : dict) (url : value) :
  keyed (sast_scanning st) →
  item !! "url" = Some url →
  url ≠ VNaN →
  ∃ reg,
    add_scanning_item item st = (set_scanning reg st, Ok reg)
    ∧ entries_for url reg = [item]
    ∧ (NoDup (urls (sast_scanning st)) → NoDup (urls reg))
    ∧ (reachable (sast_scanning st) → reachable reg ∧ NoDup (real_urls reg)).
Proof.
  intros Hkeyed Hurl Hnan. eexists. split; [by apply add_scanning_item_keyed |].
  split; [by apply entries_for_capped_upsert |].
  assert (reachable (sast_scanning st) →
          reachable (capped MAX_SCANNING_ITEMS (others url (sast_scanning st) ++ [item])))
    as Hreach.
  { intros Hr. pose proof (reach_add _ item Hr) as Hadd. unfold registry_after in Hadd.
    by rewrite (add_scanning_item_keyed item url) in Hadd. }
  split.
  - intros Hnd. eapply sublist_NoDup; [| apply urls_capped_sublist].
    unfold urls. rewrite fmap_app. apply NoDup_app. split; [| split].
    + eapply sublist_NoDup; [exact Hnd | apply urls_others_sublist].
    + intros x Hx. cbn. rewrite list_elem_of_singleton, Hurl. intros ->.
      by apply (not_in_urls_others url (sast_scanning st)).
    + apply NoDup_singleton.
  - intros Hr. split; [by apply Hreach |]. by apply registry_invariant, Hreach.
Qed.

Lemma upsert_by_url_witness :
  ∃ reg,
    add_scanning_item item_analyzing (state_of_registry [item_completed; item_other])
      = (set_scanning reg (state_of_registry [item_completed; item_other]), Ok reg)
    ∧ entries_for (VStr "http://x/a.js") reg = [item_analyzing]
    ∧ (NoDup (urls (sast_scanning (state_of_registry [item_completed; item_other]))) →
         NoDup (urls reg))
    ∧ (reachable (sast_scanning (state_of_registry [item_completed; item_other])) →
         reachable reg ∧ NoDup (real_urls reg)).
Proof.
  apply (upsert_by_url (state_of_registry [item_completed; item_other]) item_analyzing
           (VStr "http://x/a.js")).
  - unfold keyed. apply (bool_decide_unpack _). vm_compute. exact I.
  - vm_compute. reflexivity.
  - discriminate.
Defined.

(** The claim as it reads, without the proviso on the url, fails once a
    [nan] url is filed: the registry that holds [item_nan], which the service
    reaches by filing it, keeps it when [item_nan_later] is filed under the
    same url, and holds two entries under it. *)
Lemma upsert_by_url_counterexample :
  let st := state_of_registry [item_nan] in
  reachable (sast_scanning st)
  ∧ keyed (sast_scanning st)
  ∧ item_nan_later !! "url" = Some VNaN
  ∧ add_scanning_item item_nan_later st
    = (set_scanning [item_nan; item_nan_later] st, Ok [item_nan; item_nan_later])
  ∧ entries_for VNaN [item_nan; item_nan_later] = [item_nan; item_nan_later]
  ∧ ¬ (∃ reg,
         add_scanning_item item_nan_later st = (set_scanning reg st, Ok reg)
         ∧ entries_for VNaN reg = [item_nan_later]).
Proof.
  cbv zeta.
  assert (add_scanning_item item_nan_later (state_of_registry [item_nan])
          = (set_scanning [item_nan; item_nan_later] (state_of_registry [item_nan]),
             Ok [item_nan; item_nan_later])) as Hadd by (vm_compute; reflexivity).
  assert (entries_for VNaN [item_nan; item_nan_later] = [item_nan; item_nan_later])
    as Hboth by (vm_compute; reflexivity).
  split; [| split; [| split; [| split; [| split]]]].
  - assert (registry_after (add_scanning_item item_nan) [] = [item_nan]) as <-
      by (vm_compute; reflexivity).
    apply reach_add, reach_init.
  - unfold keyed. apply (bool_decide_unpack _). vm_compute. exact I.
  - vm_compute. reflexivity.
  - exact Hadd.
  - exact Hboth.
  - intros (reg & Hreg & Hone). rewrite Hadd in Hreg. injection Hreg as _ <-.
    rewrite Hboth in Hone. apply (f_equal length) in Hone. discriminate Hone.
Qed.

(** ** The bounded stores *)

Section LastN.

Context {A : Type}.
Implicit Types (l r : list A) (n : nat).

Lemma lastn_all n l : (length l ≤ n)%nat → lastn n l = l.
Proof. intros H. unfold lastn. by replace (length l - n)%nat with 0%nat by lia. Qed.

Lemma length_lastn n l : (n ≤ length l)%nat → length (lastn n l) = n.
Proof. intros H. unfold lastn. rewrite length_drop. lia. Qed.

Lemma lastn_app_lastn n l r : lastn n (lastn n l ++ r) = lastn n (l ++ r).
Proof.
  destruct (decide (length l ≤ n)%nat) as [Hle | Hgt]; [by rewrite (lastn_all n l) |].
  unfold lastn at 1 3. rewrite !length_app, length_lastn by lia.
  unfold lastn.
  replace (length l + length r - n)%nat with ((length l - n) + length r)%nat by lia.
  rewrite <- drop_drop, (drop_app_le l r) by lia.
  f_equal. lia.
Qed.

Lemma lastn_app_ge n l r : (n ≤ length r)%nat → lastn n (l ++ r) = lastn n r.
Proof.
  intros H. unfold lastn. rewrite length_app, drop_app_ge by lia. f_equal. lia.
Qed.

Lemma capped_lastn n l : (length l ≤ S n)%nat → capped n l = lastn n l.
Proof.
  intros H. unfold capped, lastn. destruct (Nat.ltb_spec n (length l)).
  - f_equal. lia.
  - by replace (length l - n)%nat with 0%nat by lia.
Qed.

Lemma lastn_suffix n l r :
  r `suffix_of` l → length r = n → lastn n l = r.
Proof.
  intros [k ->] <-. unfold lastn. rewrite length_app.
  by rewrite drop_app_length' by lia.
Qed.

End LastN.

Section Window.

Implicit Types (reg done l : list dict) (item : dict) (url : value) (st : state).

Lemma others_id url l : Some url ∉ urls l → others url l = l.
Proof.
  unfold urls, others. induction l as [|d l IH]; [done |].
  rewrite fmap_cons, not_elem_of_cons. intros [Hd Hl].
  rewrite filter_cons, decide_True, IH; [done | done |].
  unfold differs, py_ne. destruct (d !! "url") as [u|]; [| done].
  destruct (py_eq u url) eqn:Heq; [| done].
  apply py_eq_true in Heq as [-> _]. done.
Qed.

Lemma window_start reg : (length reg ≤ MAX_SCANNING_ITEMS)%nat → window [] reg.
Proof.
  intros Hlen. exists reg, []. rewrite app_nil_r. repeat split; done.
Qed.

Lemma window_step done reg item url :
  window done reg →
  item !! "url" = Some url →
  Some url ∉ urls done →
  window (done ++ [item]) (capped MAX_SCANNING_ITEMS (others url reg ++ [item])).
Proof.
  intros (old & news & -> & Hsuf & Hold & Hlen & Hfull) Hurl Hfresh.
  assert (others url news = news) as Hnews.
  { apply others_id. intros Hin. apply Hfresh.
    destruct Hsuf as [k ->]. unfold urls in *. rewrite fmap_app.
    apply elem_of_app. by right. }
  unfold others in *. rewrite filter_app, Hnews, <- app_assoc.
  pose proof (length_filter (λ d : dict, differs url d = true) old) as Hfilter.
  assert (old = [] → filter (λ d : dict, differs url d = true) old = []) as Hnil
    by (by intros ->).
  rewrite length_app in Hlen, Hfull.
  destruct (filter (λ d : dict, differs url d = true) old) as [|o os] eqn:Hold'.
  - cbn [app length] in *. unfold capped.
    destruct (Nat.ltb_spec MAX_SCANNING_ITEMS (length (news ++ [item]))) as [Hlt | Hle].
    + rewrite length_app in Hlt. cbn [length] in Hlt.
      destruct news as [|n ns]; [cbn in Hlt; unfold MAX_SCANNING_ITEMS in Hlt; lia |].
      cbn [app drop length] in *. rewrite drop_0.
      exists [], (ns ++ [item]). cbn [app]. split; [done |]. split.
      { apply suffix_app. etrans; [apply suffix_cons_r; reflexivity | done]. }
      split; [done |]. rewrite length_app. cbn [length]. split; lia.
    + rewrite length_app in Hle. cbn [length] in Hle.
      exists [], (news ++ [item]). cbn [app]. split; [done |]. split; [by apply suffix_app |].
      split; [done |]. rewrite length_app. cbn [length]. split; [lia |].
      intros Hne. assert (news ≠ done) as Hne' by (intros ->; done).
      destruct old as [|o' os']; [| by destruct Hne'; apply Hold].
      specialize (Hfull Hne'). cbn [length] in Hfull. lia.
  - assert (old ≠ []) as Hne by (intros ->; discriminate (Hnil eq_refl)).
    specialize (Hold Hne) as ->. cbn [app length] in *. unfold capped.
    destruct (Nat.ltb_spec MAX_SCANNING_ITEMS (length (o :: os ++ done ++ [item])))
      as [Hlt | Hle]; cbn [length] in *; rewrite !length_app in *; cbn [length] in *.
    + cbn [drop]. rewrite drop_0. exists os, (done ++ [item]).
      split; [done |]. split; [done |]. split; [done |].
      rewrite !length_app. cbn [length]. split; lia.
    + exists (o :: os), (done ++ [item]).
      split; [done |]. split; [done |]. split; [done |].
      cbn [app length]. rewrite !length_app. cbn [length]. split; [lia | done].
Qed.

Lemma window_full done reg :
  window done reg →
  (MAX_SCANNING_ITEMS < length done)%nat →
  reg = lastn MAX_SCANNING_ITEMS done ∧ length reg = MAX_SCANNING_ITEMS.
Proof.
  intros (old & news & -> & Hsuf & Hold & Hlen & Hfull) Hmore.
  rewrite length_app in Hlen, Hfull.
  assert (news ≠ done) as Hne by (intros ->; lia).
  destruct old as [|o os]; [| by destruct Hne; apply Hold].
  specialize (Hfull Hne). cbn [app length] in *.
  split; [| done]. symmetry. by apply lastn_suffix.
Qed.

Lemma state_scanning_id st : set_scanning (sast_scanning st) st = st.
Proof. by destruct st. Qed.

Lemma state_findings_id st : set_findings (sast_findings st) st = st.
Proof. by destruct st. Qed.

Lemma calls_add_scanning_item (items : list dict) :
  ∀ done st,
    keyed (sast_scanning st) → keyed items →
    NoDup (urls (done ++ items)) →
    window done (sast_scanning st) →
    ∃ reg, calls add_scanning_item items st = (set_scanning reg st, Ok tt)
           ∧ window (done ++ items) reg.
Proof.
  induction items as [|item rest IH]; intros done st Hkeyed Hitems Hnd Hwin.
  - exists (sast_scanning st). rewrite app_nil_r, state_scanning_id. done.
  - apply Forall_cons in Hitems as [[url Hurl] Hrest].
    assert (Some url ∉ urls done) as Hfresh.
    { unfold urls in *. rewrite fmap_app, fmap_cons, Hurl in Hnd.
      apply NoDup_app in Hnd as (_ & Hdisj & _). intros Hin.
      apply (Hdisj _ Hin). by left. }
    pose proof (window_step _ _ _ _ Hwin Hurl Hfresh) as Hwin'.
    cbn [calls]. unfold mbind at 1, M_bind, bind.
    rewrite (add_scanning_item_keyed item url) by done. cbv zeta.
    set (reg1 := capped MAX_SCANNING_ITEMS (others url (sast_scanning st) ++ [item])) in *.
    destruct (IH (done ++ [item]) (set_scanning reg1 st)) as (reg & Hcalls & Hwin'').
    + cbn [sast_scanning set_scanning]. subst reg1.
      apply keyed_capped, Forall_app. split; [by apply keyed_others |].
      by constructor; [eexists | constructor].
    + done.
    + by rewrite <- app_assoc.
    + done.
    + exists reg. rewrite Hcalls. split; [done |]. by rewrite <- app_assoc in Hwin''.
Qed.

End Window.

Section FindingsStore.

Implicit Types (items store : list Finding) (st : state).

Lemma append_finding_spec (item : Finding) st :
  append_finding item st
  = (set_findings (capped MAX_SAST_FINDINGS (sast_findings st ++ [item])) st, Ok tt).
Proof.
  unfold append_finding, mbind, M_bind, bind, get, lift, modify, mret, M_ret, ret.
  cbn [sast_findings set_findings]. unfold capped at 1.
  destruct (Nat.ltb_spec MAX_SAST_FINDINGS (length (sast_findings st ++ [item]))) as [Hlt | Hle].
  - rewrite (pop0_capped MAX_SAST_FINDINGS) by done. unfold capped.
    by rewrite (proj2 (Nat.ltb_lt _ _) Hlt).
  - done.
Qed.

Lemma append_findings_spec items :
  ∀ st, (length (sast_findings st) ≤ MAX_SAST_FINDINGS)%nat →
    append_findings items st
    = (set_findings (lastn MAX_SAST_FINDINGS (sast_findings st ++ items)) st, Ok tt).
Proof.
  induction items as [|item rest IH]; intros st Hlen.
  - cbn [append_findings]. by rewrite app_nil_r, lastn_all, state_findings_id.
  - cbn [append_findings]. unfold mbind at 1, M_bind, bind.
    rewrite append_finding_spec, capped_lastn by (rewrite length_app; cbn; lia).
    rewrite IH; cbn [sast_findings set_findings].
    + by rewrite lastn_app_lastn, <- app_assoc.
    + unfold lastn. rewrite length_drop, length_app. cbn [length]. lia.
Qed.

Lemma add_sast_findings_spec items st :
  (length (sast_findings st) ≤ MAX_SAST_FINDINGS)%nat →
  add_sast_findings items st
  = (set_findings (lastn MAX_SAST_FINDINGS (sast_findings st ++ items)) st, Ok tt).
Proof.
  intros Hlen. unfold add_sast_findings. case_bool_decide as Hnil.
  - subst items. by rewrite app_nil_r, lastn_all, state_findings_id.
  - by apply append_findings_spec.
Qed.

Lemma length_lastn_le {A} n (l : list A) : (length (lastn n l) ≤ n)%nat.
Proof. unfold lastn. rewrite length_drop. lia. Qed.

(** The store never grows beyond its cap. *)
Lemma add_sast_findings_bounded items st :
  (length (sast_findings st) ≤ MAX_SAST_FINDINGS)%nat →
  (length (sast_findings (add_sast_findings items st).1) ≤ MAX_SAST_FINDINGS)%nat.
Proof.
  intros Hlen. rewrite add_sast_findings_spec by done. apply length_lastn_le.
Qed.

Lemma calls_add_sast_findings (batches : list (list Finding)) :
  ∀ st, (length (sast_findings st) ≤ MAX_SAST_FINDINGS)%nat →
    calls add_sast_findings batches st
    = (set_findings (lastn MAX_SAST_FINDINGS (sast_findings st ++ concat batches)) st, Ok tt).
Proof.
  induction batches as [|items rest IH]; intros st Hlen.
  - cbn [calls concat]. by rewrite app_nil_r, lastn_all, state_findings_id.
  - cbn [calls concat]. unfold mbind at 1, M_bind, bind.
    rewrite add_sast_findings_spec by done.
    rewrite IH; cbn [sast_findings set_findings]; [| apply length_lastn_le].
    by rewrite lastn_app_lastn, <- app_assoc.
Qed.

End FindingsStore.

(** C2. From a state whose stores respect their caps: after more than
    [MAX_SCANNING_ITEMS] calls of [add_scanning_item] with pairwise distinct
    urls the registry is the last [MAX_SCANNING_ITEMS] items, in the order of
    the calls; after calls of [add_sast_findings] that bring more than
    [MAX_SAST_FINDINGS] findings the store is the last [MAX_SAST_FINDINGS]
    of them, in the order they came. *)
Theorem bounded_stores (st : state) (items : list dict) (batches : list (list Finding)) :
  keyed (sast_scanning st) →
  (length (sast_scanning st) ≤ MAX_SCANNING_ITEMS)%nat →
  keyed items →
  NoDup (urls items) →
  (MAX_SCANNING_ITEMS < length items)%nat →
  (length (sast_findings st) ≤ MAX_SAST_FINDINGS)%nat →
  (MAX_SAST_FINDINGS < length (concat batches))%nat →
  (∃ st', calls add_scanning_item items st = (st', Ok tt)
          ∧ sast_scanning st' = lastn MAX_SCANNING_ITEMS items
          ∧ length (sast_scanning st') = MAX_SCANNING_ITEMS)
  ∧ (∃ st', calls add_sast_findings batches st = (st', Ok tt)
            ∧ sast_findings st' = lastn MAX_SAST_FINDINGS (concat batches)
            ∧ length (sast_findings st') = MAX_SAST_FINDINGS).
Proof.
  intros Hkeyed Hreg Hitems Hnd Hmany Hstore Hmore. split.
  - destruct (calls_add_scanning_item items [] st) as (reg & Hcalls & Hwin);
      [done | done | done | by apply window_start |].
    cbn [app] in Hwin. apply window_full in Hwin as [-> Hlen]; [| done].
    eexists. split; [exact Hcalls |]. cbn [sast_scanning set_scanning]. done.
  - eexists. split; [by apply calls_add_sast_findings |].
    cbn [sast_findings set_findings]. rewrite lastn_app_ge by lia.
    split; [done |]. apply length_lastn. lia.
Qed.

Lemma bounded_stores_witness :
  (∃ st', calls add_scanning_item many_items initial_state = (st', Ok tt)
          ∧ sast_scanning st' = lastn MAX_SCANNING_ITEMS many_items
          ∧ length (sast_scanning st') = MAX_SCANNING_ITEMS)
  ∧ (∃ st', calls add_sast_findings many_findings initial_state = (st', Ok tt)
            ∧ sast_findings st' = lastn MAX_SAST_FINDINGS (concat many_findings)
            ∧ length (sast_findings st') = MAX_SAST_FINDINGS).
Proof.
  apply (bounded_stores initial_state many_items many_findings).
  - constructor.
  - apply Nat.leb_le. vm_compute. reflexivity.
  - unfold keyed. apply (bool_decide_unpack _). vm_compute. exact I.
  - apply (bool_decide_unpack _). vm_compute. exact I.
  - apply Nat.ltb_lt. vm_compute. reflexivity.
  - apply Nat.leb_le. vm_compute. reflexivity.
  - apply Nat.ltb_lt. vm_compute. reflexivity.
Defined.

(** ** The pipeline *)

(** Steps of the monad. *)
Lemma bind_lift_ok {A B} (a : A) (k : A → M B) (st : state) :
  (lift (Ok a) ≫= k) st = k a st.
Proof. done. Qed.

Lemma bind_lift_raise {A B} (e : exn) (k : A → M B) (st : state) :
  (lift (Raise e) ≫= k) st = (st, Raise e).
Proof. done. Qed.

(** Headers that are a dict, or falsy, are a dict once line 313 has run. *)
Lemma as_dict_or_empty (headers : pyobj) :
  headers ≠ PyOther true → as_dict (or_empty_obj headers) = Ok (or_empty_dict headers).
Proof.
  intros H. unfold or_empty_dict, or_empty_obj.
  destruct headers as [d | []]; cbn [pyobj_truthy]; [by destruct (dict_truthy d) | done | done].
Qed.

Lemma or_empty_dict_of_dict (d : dict) : or_empty_dict (PyDict d) = d.
Proof.
  unfold or_empty_dict, or_empty_obj. cbn [pyobj_truthy]. unfold dict_truthy.
  case_bool_decide; cbn [negb]; by subst.
Qed.

(** The guard of lines 310-311. *)
Lemma analyze_sast_guard (env : Env) (st : state) (record : pyobj)
    (body : value) (headers : pyobj) :
  pyobj_truthy record = false ∨ truthy body = false →
  analyze_sast env record body headers st = (st, Ok []).
Proof.
  intros [Hrecord | Hbody]; unfold analyze_sast.
  - by rewrite Hrecord.
  - by rewrite Hbody, orb_true_r.
Qed.

(** C9. With no record ([None], or another falsy value), an empty record or
    an empty body, [analyze_sast] returns the empty list and the state is
    what it was: findings, registry, files and timers. *)
Theorem analyze_sast_preconditions (env : Env) (st : state) (record : pyobj)
    (body : value) (headers : pyobj) :
  record = PyOther false ∨ record = PyDict ∅ ∨ truthy body = false →
  analyze_sast env record body headers st = (st, Ok []).
Proof.
  intros [-> | [-> | Hbody]]; apply analyze_sast_guard.
  - by left.
  - by left.
  - by right.
Qed.

Lemma analyze_sast_preconditions_witness :
  analyze_sast env_quiet (PyDict record_a) (VStr "") (PyDict headers_js) state_after_a
  = (state_after_a, Ok []).
Proof.
  apply (analyze_sast_preconditions env_quiet state_after_a (PyDict record_a) (VStr "")
           (PyDict headers_js)).
  right. right. reflexivity.
Defined.

Section Eligibility.

Variables (content_type url : string).

Lemma is_js_flag_spec :
  ∃ is_js, is_js_flag content_type (VStr url) = Ok is_js
    ∧ (is_js = true ↔
         substr "javascript" content_type ∨ substr "application/json" content_type
         ∨ substr "application/x-javascript" content_type ∨ suffix_of ".js" url).
Proof.
  unfold is_js_flag, url_endswith. cbn [value_str mbind res_bind].
  destruct (contains "javascript" content_type) eqn:H1;
    [exists true; rewrite <- !contains_spec, <- endswith_spec; tauto |].
  destruct (contains "application/json" content_type) eqn:H2;
    [exists true; rewrite <- !contains_spec, <- endswith_spec; tauto |].
  destruct (contains "application/x-javascript" content_type) eqn:H3;
    [exists true; rewrite <- !contains_spec, <- endswith_spec; tauto |].
  exists (endswith url ".js"). rewrite <- !contains_spec, <- endswith_spec.
  intuition congruence.
Qed.

Lemma is_text_flag_spec (is_js : bool) :
  is_text_flag content_type (is_html_flag content_type) is_js = true ↔
    substr "text" content_type ∨ substr "xml" content_type
    ∨ is_html_flag content_type = true ∨ is_js = true.
Proof.
  unfold is_text_flag. rewrite !orb_true_iff, <- !contains_spec. tauto.
Qed.

End Eligibility.

(** The call on a body that is not text: the item is filed, removed again,
    and a timer is started. *)
Lemma analyze_sast_not_text (env : Env) (st : state) (record : dict) (body : value)
    (headers : pyobj) (url : value) (is_js : bool) :
  let content_type := lower (str (dict_get (or_empty_dict headers) "content-type" (VStr ""))) in
  headers ≠ PyOther true →
  dict_truthy record = true →
  truthy body = true →
  dict_get record "url" (VStr "") = url →
  keyed (sast_scanning st) →
  is_js_flag content_type url = Ok is_js →
  is_text_flag content_type (is_html_flag content_type) is_js = false →
  ∃ reg,
    analyze_sast env (PyDict record) body headers st
    = (set_timers (timers st ++ [url]) (set_scanning (others url reg) st), Ok [])
    ∧ keyed reg.
Proof.
  intros content_type Hheaders Hrecord Hbody Hurl Hkeyed Hjs Htext.
  unfold analyze_sast. cbn [pyobj_truthy]. rewrite Hrecord, Hbody. cbn [negb orb as_dict].
  rewrite bind_lift_ok, as_dict_or_empty by done. cbv zeta. rewrite bind_lift_ok.
  rewrite Hurl. fold content_type.
  unfold mbind at 1, M_bind, bind at 1.
  erewrite (add_scanning_item_keyed _ url) by (done || by rewrite lookup_insert_eq).
  cbv zeta. unfold try_finally, try_except.
  unfold mbind at 1, M_bind, bind at 1, lift. rewrite Hjs, Htext. cbn [negb orb].
  unfold mbind at 1, M_bind, bind at 1.
  match goal with |- context [remove_scanning_item url ?s] =>
    rewrite (remove_scanning_item_keyed url s) end.
  2:{ cbn [sast_scanning set_scanning]. apply keyed_capped, Forall_app.
      split; [by apply keyed_others |].
      constructor; [| constructor]. rewrite lookup_insert_eq. by eexists. }
  cbn [sast_scanning set_scanning]. unfold mret, M_ret, ret, start_timer, modify.
  eexists. split; [reflexivity |].
  apply keyed_capped, Forall_app. split; [by apply keyed_others |].
  constructor; [| constructor]. rewrite lookup_insert_eq. by eexists.
Qed.

(** C4, as the code has it, for a record that is a JSON object and headers
    that are a JSON object or falsy. With [content_type] the lower-cased
    content-type header and [url] the url of the record: isJs holds exactly
    when the content type contains javascript, application/json or
    application/x-javascript or the url ends in .js; isText holds exactly
    when the content type contains text or xml, or isHtml, or isJs. When
    record and body are not empty and isText is false, [analyze_sast]
    returns the empty list and no scanning item of the url is left. When
    the body is empty it returns the empty list and leaves the state, the
    registry with it, as it found it. *)
Theorem eligibility_flags (env : Env) (st : state) (record : dict) (body : value)
    (headers : pyobj) (url : string) :
  let content_type := lower (str (dict_get (or_empty_dict headers) "content-type" (VStr ""))) in
  headers ≠ PyOther true →
  dict_get record "url" (VStr "") = VStr url →
  keyed (sast_scanning st) →
  ∃ is_js,
    is_js_flag content_type (VStr url) = Ok is_js
    ∧ (is_js = true ↔
         substr "javascript" content_type ∨ substr "application/json" content_type
         ∨ substr "application/x-javascript" content_type ∨ suffix_of ".js" url)
    ∧ (is_html_flag content_type = true ↔ substr "html" content_type)
    ∧ (is_text_flag content_type (is_html_flag content_type) is_js = true ↔
         substr "text" content_type ∨ substr "xml" content_type
         ∨ is_html_flag content_type = true ∨ is_js = true)
    ∧ (is_text_flag content_type (is_html_flag content_type) is_js = false →
       dict_truthy record = true → truthy body = true →
       ∃ st', analyze_sast env (PyDict record) body headers st = (st', Ok [])
              ∧ entries_for (VStr url) (sast_scanning st') = [])
    ∧ (truthy body = false →
       analyze_sast env (PyDict record) body headers st = (st, Ok [])).
Proof.
  intros content_type Hheaders Hurl Hkeyed.
  destruct (is_js_flag_spec content_type url) as (is_js & Hjs & Hjs_iff).
  exists is_js. split; [done |]. split; [done |].
  split; [apply contains_spec |]. split; [apply is_text_flag_spec |]. split.
  - intros Htext Hrecord Hbody.
    destruct (analyze_sast_not_text env st record body headers (VStr url) is_js)
      as (reg & Hcall & _); try done.
    eexists. split; [exact Hcall |]. cbn [sast_scanning set_timers set_scanning].
    by apply entries_for_none, not_in_urls_others.
  - intros Hbody. apply analyze_sast_guard. by right.
Qed.

(** The theorem at work on [state_after_a], where the item of
    [http://x/a.js] waits for its timer. A PNG image with a body: isJs and
    isText are false, the call returns the empty list and no item of the
    image's url is left. The same request with an empty body: the call
    returns the empty list and the state is untouched. *)
Lemma eligibility_flags_witness :
  (is_js_flag "image/png" (VStr "http://x/logo.png") = Ok false
   ∧ is_text_flag "image/png" (is_html_flag "image/png") false = false
   ∧ ∃ st', analyze_sast env_quiet (PyDict record_png) (VStr "x") (PyDict headers_png)
              state_after_a = (st', Ok [])
            ∧ entries_for (VStr "http://x/logo.png") (sast_scanning st') = [])
  ∧ analyze_sast env_quiet (PyDict record_png) (VStr "") (PyDict headers_png) state_after_a
    = (state_after_a, Ok []).
Proof.
  assert (keyed (sast_scanning state_after_a)) as Hkeyed.
  { unfold keyed. apply (bool_decide_unpack _). vm_compute. exact I. }
  split.
  - destruct (eligibility_flags env_quiet state_after_a record_png (VStr "x")
                (PyDict headers_png) "http://x/logo.png")
      as (is_js & Hjs & _ & _ & _ & Hnot & _);
      [discriminate | vm_compute; reflexivity | exact Hkeyed |].
    assert (is_js = false) as -> by (vm_compute in Hjs; congruence).
    split; [vm_compute; reflexivity |]. split; [vm_compute; reflexivity |].
    apply Hnot; vm_compute; reflexivity.
  - destruct (eligibility_flags env_quiet state_after_a record_png (VStr "")
                (PyDict headers_png) "http://x/logo.png")
      as (is_js & _ & _ & _ & _ & _ & Hempty);
      [discriminate | vm_compute; reflexivity | exact Hkeyed |].
    apply Hempty. vm_compute; reflexivity.
Defined.

(** The claim of C4 on the empty body fails: the url was analysed a moment
    ago, its item is still in the registry, and the call with an empty body
    (and a content type that is not text) leaves it there. *)
Lemma eligibility_counterexample :
  ¬ (truthy (VStr "") = false →
     (analyze_sast env_quiet (PyDict record_a) (VStr "") (PyDict headers_png) state_after_a).2
       = Ok []
     ∧ entries_for (VStr "http://x/a.js")
         (sast_scanning
            (analyze_sast env_quiet (PyDict record_a) (VStr "") (PyDict headers_png)
               state_after_a).1) = []).
Proof.
  intros H. destruct (H eq_refl) as [_ Hnone].
  apply (f_equal length) in Hnone. vm_compute in Hnone. discriminate Hnone.
Qed.

(** ** The scratch file *)

Section ScratchFile.

Variables (env : Env) (content : string) (url method host timestamp : value)
          (content_type : string).

(** A failed engine run and an output that does not parse are absorbed by
    the handlers of lines 178-181. *)
Lemma scan_ruleset_soft_failure (ruleset path extension stdout : string) :
  run_semgrep env ruleset path = Raise SubprocessError
  ∨ (run_semgrep env ruleset path = Ok stdout
     ∧ json_loads env stdout = Raise JSONDecodeError) →
  scan_ruleset env ruleset path url method host timestamp extension = Ok [].
Proof.
  unfold scan_ruleset, findings_of_output. destruct (path_exists env ruleset); [| done].
  intros [Hrun | [Hrun Hload]]; rewrite Hrun; cbn [mbind res_bind]; [done |].
  by rewrite Hload.
Qed.

(** When nothing escapes the two handlers and the file may be unlinked, the
    scratch file is gone when the call returns. *)
Lemma run_semgrep_analysis_cleans_up (st : state) (extension : string)
    (rulesets : list string) (findings : list Finding) :
  let path := temp_file_path env extension in
  semgrep_initialized st = true →
  choose_extension content_type url = Ok extension →
  open_ok env path = true →
  write_ok env path content = true →
  resolve_rulesets env extension = Ok rulesets →
  (if bool_decide (rulesets = []) then Ok []
   else scan_rulesets env rulesets path url method host timestamp extension [])
    = Ok findings →
  unlink_ok env path = true →
  run_semgrep_analysis env content url method host content_type timestamp st
  = (set_files (delete path (files st)) st, Ok findings).
Proof.
  intros path Hinit Hext Hopen Hwrite Hres Hscan Hunlink.
  unfold run_semgrep_analysis, try_except, write_temp_file, unlink.
  unfold mbind, M_bind, bind, get, lift, mret, M_ret, ret.
  rewrite Hinit, Hext. cbn [negb]. fold path. rewrite Hopen, Hwrite, Hres, Hscan.
  cbn [files set_files]. rewrite Hunlink, lookup_insert_eq.
  rewrite bool_decide_eq_true_2 by eauto. cbn [andb].
  rewrite (delete_insert_eq (files st)). done.
Qed.

End ScratchFile.

(** C1 fails on the code. The engine is initialised and the request is a
    JavaScript body. With the rules directory missing, [os.listdir] raises
    after the scratch file was written; with an engine output that has no
    [results] member, line 156 raises [KeyError]. Either way the handler of
    line 191 returns the empty list and the scratch file is still there. *)
Theorem scratch_file_left_behind :
  let path := temp_file_path env_quiet ".js" in
  let run env :=
    run_semgrep_analysis env "eval(userInput)" (VStr "http://x/a.js") (VStr "GET")
      (VStr "x") "application/javascript" (VInt 1000) state_ready in
    ((run env_no_rules).2 = Ok []
     ∧ files (run env_no_rules).1 !! path = Some "eval(userInput)")
  ∧ ((run env_no_results).2 = Ok []
     ∧ files (run env_no_results).1 !! path = Some "eval(userInput)")
  ∧ ((run env_quiet).2 = Ok []
     ∧ files (run env_quiet).1 !! path = None).
Proof.
  cbv zeta. repeat split; vm_compute; reflexivity.
Qed.

(** * Further properties of the module *)

(** ** Display type and severity *)

(** X1. The display type of a response is decided by the lower-cased
    content-type header, first match among html, javascript, json, xml, css;
    it is Unknown when none matches or the header is missing; it is one of
    six names and never empty, so the fallback of line 330 is never taken. *)
Theorem display_type_priority (headers : dict) :
  let content_type := lower (str (dict_get headers "content-type" (VStr ""))) in
  let ct w := substr w content_type in
  let t := get_file_type_from_content_type headers in
    (ct "html" → t = "HTML")
  ∧ (¬ ct "html" → ct "javascript" → t = "JavaScript")
  ∧ (¬ ct "html" → ¬ ct "javascript" → ct "json" → t = "JSON")
  ∧ (¬ ct "html" → ¬ ct "javascript" → ¬ ct "json" → ct "xml" → t = "XML")
  ∧ (¬ ct "html" → ¬ ct "javascript" → ¬ ct "json" → ¬ ct "xml" → ct "css" → t = "CSS")
  ∧ (¬ ct "html" → ¬ ct "javascript" → ¬ ct "json" → ¬ ct "xml" → ¬ ct "css" →
       t = "Unknown")
  ∧ (headers !! "content-type" = None → t = "Unknown")
  ∧ t ∈ display_types
  ∧ t ≠ "".
Proof.
  cbv zeta. unfold get_file_type_from_content_type, dict_get, display_types.
  assert (∀ t : string, t ∈ ["HTML"; "JavaScript"; "JSON"; "XML"; "CSS"; "Unknown"] →
            t ≠ "") as Hne.
  { intros t Ht ->. repeat (apply elem_of_cons in Ht as [Ht | Ht]; [discriminate Ht |]).
    by apply elem_of_nil in Ht. }
  destruct (headers !! "content-type") as [v|] eqn:Hv; cbn [default]; unfold id.
  - rewrite <- !contains_spec.
    destruct (contains "html" (lower (str v)));
      [repeat split; try (intros; congruence); try (apply Hne); by repeat constructor |].
    destruct (contains "javascript" (lower (str v)));
      [repeat split; try (intros; congruence); try (apply Hne); by repeat constructor |].
    destruct (contains "json" (lower (str v)));
      [repeat split; try (intros; congruence); try (apply Hne); by repeat constructor |].
    destruct (contains "xml" (lower (str v)));
      [repeat split; try (intros; congruence); try (apply Hne); by repeat constructor |].
    destruct (contains "css" (lower (str v)));
      repeat split; try (intros; congruence); try (apply Hne); by repeat constructor.
  - rewrite <- !contains_spec. change (lower (str (VStr ""))) with "".
    cbn. repeat split; try (intros; congruence); try (apply Hne); by repeat constructor.
Qed.

(** What [map_semgrep_severity_to_sast_severity] answers on any JSON value. *)
Lemma severity_cases (env : Env) (j : json) :
  match map_semgrep_severity_to_sast_severity env j with
  | Ok s => s ∈ severities
  | Raise e => e = AttributeError ∧ json_truthy j = true ∧ ∀ s, j ≠ JStr s
  end.
Proof.
  unfold severities. destruct j as [| b | z | s | l | kv];
    try (unfold map_semgrep_severity_to_sast_severity; cbn [json_truthy];
         match goal with
         | |- context [if ?c then _ else _] =>
             destruct c eqn:Hc; cbn [json_str mbind res_bind]
         | _ => idtac
         end; first [by set_unfold; tauto | by repeat split]).
  rewrite severity_of_upper. repeat case_decide; set_unfold; tauto.
Qed.

(** X2. The mapped severity is always CRITICAL, HIGH or MEDIUM. A falsy
    engine severity ([None], the empty string, [0], [false], an empty list or
    object) maps to MEDIUM; the only exception the function raises is
    [AttributeError], on a truthy value that is not a string. *)
Theorem severity_range (env : Env) (j : json) :
    (∀ s, map_semgrep_severity_to_sast_severity env j = Ok s → s ∈ severities)
  ∧ (json_truthy j = false → map_semgrep_severity_to_sast_severity env j = Ok "MEDIUM")
  ∧ (∀ e, map_semgrep_severity_to_sast_severity env j = Raise e →
       e = AttributeError ∧ json_truthy j = true ∧ ∀ s, j ≠ JStr s)
  ∧ (∀ s, ∃ t, map_semgrep_severity_to_sast_severity env (JStr s) = Ok t).
Proof.
  pose proof (severity_cases env j) as Hj. split; [| split; [| split]].
  - intros s Hs. by rewrite Hs in Hj.
  - intros Hf. unfold map_semgrep_severity_to_sast_severity. by rewrite Hf.
  - intros e He. by rewrite He in Hj.
  - intros s. rewrite severity_of_upper. by eexists.
Qed.

(** ** More on the scanning registry *)

Section RegistryMore.

Implicit Types (reg l : list dict) (item e : dict) (url u : value) (st : state).

Lemma entries_for_others_ne url u l :
  u ≠ url → entries_for u (others url l) = entries_for u l.
Proof.
  intros Hne. unfold entries_for, others. induction l as [|d l IH]; [done |].
  rewrite !filter_cons. destruct (decide (differs url d = true)) as [Hd | Hd].
  - rewrite filter_cons. by rewrite IH.
  - rewrite IH. rewrite decide_False; [done |].
    intros Hu. apply Hd. unfold differs. rewrite Hu.
    unfold py_ne. destruct (py_eq u url) eqn:Heq; [| done].
    by apply py_eq_true in Heq as [-> _].
Qed.

Lemma others_nan l : others VNaN l = l.
Proof.
  unfold others. induction l as [|d l IH]; [done |].
  rewrite filter_cons, decide_True, IH; [done |].
  unfold differs, py_ne. destruct (d !! "url") as [u|]; [| done]. by rewrite py_eq_nan.
Qed.

Lemma others_others url l : others url (others url l) = others url l.
Proof.
  unfold others. induction l as [|d l IH]; [done |].
  rewrite filter_cons. case_decide; [| done].
  by rewrite filter_cons, decide_True, IH.
Qed.

(** A url is on file when an entry has it and [==] would find it. *)
Lemma others_not_on_file url l : ¬ (Some url ∈ urls l ∧ url ≠ VNaN) → others url l = l.
Proof.
  intros Hnot. destruct (decide (url = VNaN)) as [-> | Hnan]; [apply others_nan |].
  apply others_id. tauto.
Qed.

Lemma not_in_urls_entries url l : entries_for url l = [] ↔ Some url ∉ urls l.
Proof.
  split; [| apply entries_for_none].
  unfold entries_for, urls. induction l as [|d l IH]; [intros _; apply not_elem_of_nil |].
  rewrite filter_cons, fmap_cons, not_elem_of_cons.
  destruct (decide (d !! "url" = Some url)); [done |]. intros Hl. split; [congruence | auto].
Qed.

Lemma length_others_lt url l :
  Some url ∈ urls l → url ≠ VNaN → (length (others url l) < length l)%nat.
Proof.
  unfold urls, others. rewrite list_elem_of_fmap. intros (d & Hd & Hin) Hnan.
  apply (length_filter_lt _ _ d); [done |]. unfold differs, py_ne.
  by rewrite <- Hd, py_eq_refl.
Qed.

End RegistryMore.

(** X3. [remove_scanning_item] on a registry whose entries have a url.
    For a url that is equal to itself no entry of the url is left; for the
    url [nan], which is equal to none, nothing is removed. The entries of
    every other url are kept in their order, a second removal changes
    nothing, and removing a url that is not filed changes nothing. *)
Theorem remove_scanning_item_idempotent (st : state) (url : value) :
  keyed (sast_scanning st) →
  ∃ st',
    remove_scanning_item url st = (st', Ok (sast_scanning st'))
    ∧ (url ≠ VNaN → entries_for url (sast_scanning st') = [])
    ∧ (url = VNaN → st' = st)
    ∧ (∀ u, u ≠ url → entries_for u (sast_scanning st') = entries_for u (sast_scanning st))
    ∧ sast_scanning st' `sublist_of` sast_scanning st
    ∧ remove_scanning_item url st' = (st', Ok (sast_scanning st'))
    ∧ (entries_for url (sast_scanning st) = [] → st' = st).
Proof.
  intros Hkeyed. exists (set_scanning (others url (sast_scanning st)) st).
  split; [by apply remove_scanning_item_keyed |].
  cbn [sast_scanning set_scanning].
  split; [intros Hnan; by apply entries_for_none, not_in_urls_others |].
  split; [intros ->; by rewrite others_nan, state_scanning_id |].
  split; [intros u Hu; by apply entries_for_others_ne |].
  split; [apply sublist_filter |]. split.
  - rewrite remove_scanning_item_keyed by (by apply keyed_others).
    cbn [sast_scanning set_scanning]. by rewrite others_others.
  - intros Hnone. apply not_in_urls_entries in Hnone.
    by rewrite others_id, state_scanning_id.
Qed.

Lemma remove_scanning_item_idempotent_witness :
  ∃ st',
    remove_scanning_item (VStr "http://x/a.js")
      (state_of_registry [item_completed; item_other])
      = (st', Ok (sast_scanning st'))
    ∧ (VStr "http://x/a.js" ≠ VNaN →
         entries_for (VStr "http://x/a.js") (sast_scanning st') = [])
    ∧ (VStr "http://x/a.js" = VNaN → st' = state_of_registry [item_completed; item_other])
    ∧ (∀ u, u ≠ VStr "http://x/a.js" →
         entries_for u (sast_scanning st')
         = entries_for u (sast_scanning (state_of_registry [item_completed; item_other])))
    ∧ sast_scanning st'
        `sublist_of` sast_scanning (state_of_registry [item_completed; item_other])
    ∧ remove_scanning_item (VStr "http://x/a.js") st' = (st', Ok (sast_scanning st'))
    ∧ (entries_for (VStr "http://x/a.js")
         (sast_scanning (state_of_registry [item_completed; item_other])) = [] →
       st' = state_of_registry [item_completed; item_other]).
Proof.
  apply (remove_scanning_item_idempotent (state_of_registry [item_completed; item_other])
           (VStr "http://x/a.js")).
  unfold keyed. apply (bool_decide_unpack _). vm_compute. exact I.
Defined.

(** X4. Filing an item in a registry within its cap. A url is on file when
    an entry has it and it is equal to itself (it is not [nan]). A url that
    is on file is refreshed: its old entry leaves, the item goes to the end,
    and no other entry is evicted. A url that is not on file is appended;
    when the registry is full the oldest entry, and only it, is evicted. *)
Theorem upsert_eviction (st : state) (item : dict) (url : value) :
  keyed (sast_scanning st) →
  item !! "url" = Some url →
  (length (sast_scanning st) ≤ MAX_SCANNING_ITEMS)%nat →
  let reg := sast_scanning st in
  let reg' := sast_scanning (add_scanning_item item st).1 in
  let on_file := Some url ∈ urls reg ∧ url ≠ VNaN in
    (on_file → reg' = others url reg ++ [item] ∧ (length reg' ≤ length reg)%nat)
  ∧ (¬ on_file → (length reg < MAX_SCANNING_ITEMS)%nat → reg' = reg ++ [item])
  ∧ (¬ on_file → length reg = MAX_SCANNING_ITEMS → reg' = drop 1 reg ++ [item]).
Proof.
  intros Hkeyed Hurl Hlen reg reg' on_file. subst reg reg' on_file.
  rewrite (add_scanning_item_keyed item url) by done. cbn [fst sast_scanning set_scanning].
  unfold capped. split; [| split].
  - intros [Hin Hnan]. apply length_others_lt in Hin; [| done].
    rewrite (proj2 (Nat.ltb_ge _ _)) by (rewrite length_app; cbn [length]; lia).
    split; [done |]. rewrite length_app. cbn [length]. lia.
  - intros Hnot Hlt. rewrite others_not_on_file by done.
    rewrite (proj2 (Nat.ltb_ge _ _)); [done |]. rewrite length_app. cbn [length]. lia.
  - intros Hnot Hfull. rewrite others_not_on_file by done.
    rewrite (proj2 (Nat.ltb_lt _ _)) by (rewrite length_app; cbn [length]; lia).
    destruct (sast_scanning st) as [|d l]; [by cbn in Hfull |]. by cbn; rewrite !drop_0.
Qed.

Lemma upsert_eviction_witness :
  let st := state_of_registry [item_completed; item_other] in
  let reg := sast_scanning st in
  let reg' := sast_scanning (add_scanning_item item_analyzing st).1 in
  let on_file := Some (VStr "http://x/a.js") ∈ urls reg ∧ VStr "http://x/a.js" ≠ VNaN in
    (on_file → reg' = others (VStr "http://x/a.js") reg ++ [item_analyzing]
               ∧ (length reg' ≤ length reg)%nat)
  ∧ (¬ on_file → (length reg < MAX_SCANNING_ITEMS)%nat → reg' = reg ++ [item_analyzing])
  ∧ (¬ on_file → length reg = MAX_SCANNING_ITEMS → reg' = drop 1 reg ++ [item_analyzing]).
Proof.
  apply (upsert_eviction (state_of_registry [item_completed; item_other]) item_analyzing
           (VStr "http://x/a.js")).
  - unfold keyed. apply (bool_decide_unpack _). vm_compute. exact I.
  - vm_compute. reflexivity.
  - apply Nat.leb_le. vm_compute. reflexivity.
Defined.

(** ** More on the semgrep invoker *)

Section Invoker.

Variables (env : Env) (url method host timestamp : value).

Lemma mapM_res_Forall {A B} (g : A → res B) (P : B → Prop) (l : list A) (fs : list B) :
  (∀ x y, g x = Ok y → P y) → mapM g l = Ok fs → Forall P fs.
Proof.
  intros Hg. revert fs. induction l as [|x l IH]; intros fs; cbn.
  - intros [= <-]. constructor.
  - destruct (g x) as [y|] eqn:Hy; cbn [mbind res_bind]; [| done].
    destruct (mapM g l) as [ys|]; cbn [mbind res_bind]; [| done].
    intros [= <-]. constructor; [by eapply Hg | by apply IH].
Qed.

Lemma finding_of_result_from_request (finding : json) (extension : string) (f : Finding) :
  finding_of_result env finding url method host timestamp extension = Ok f →
  from_request url method host timestamp extension f.
Proof.
  unfold finding_of_result. intros H. unbind H. injection H as <-.
  unfold from_request. cbn. repeat split.
  match goal with E : map_semgrep_severity_to_sast_severity _ ?j = Ok ?s |- _ =>
    pose proof (severity_cases env j) as Hs; by rewrite E in Hs end.
Qed.

Lemma findings_of_output_from_request (stdout extension : string) (fs : list Finding) :
  findings_of_output env stdout url method host timestamp extension = Ok fs →
  Forall (from_request url method host timestamp extension) fs.
Proof.
  unfold findings_of_output. intros H.
  destruct (json_loads env stdout) as [results|]; cbn [mbind res_bind] in H; [| done].
  destruct (json_item results "results") as [logged|]; cbn [mbind res_bind] in H; [| done].
  destruct (json_len logged); cbn [mbind res_bind] in H; [| done].
  destruct (json_has "results" results) as [has|]; cbn [mbind res_bind] in H; [| done].
  destruct has; [| injection H as <-; constructor].
  destruct logged; try (injection H as <-; constructor).
  eapply mapM_res_Forall; [| exact H]. intros x y. apply finding_of_result_from_request.
Qed.

Lemma scan_ruleset_from_request (ruleset path extension : string) (fs : list Finding) :
  scan_ruleset env ruleset path url method host timestamp extension = Ok fs →
  Forall (from_request url method host timestamp extension) fs.
Proof.
  unfold scan_ruleset. destruct (path_exists env ruleset); [| by intros [= <-]].
  destruct (run_semgrep env ruleset path) as [stdout | e]; cbn [mbind res_bind res_except].
  - destruct (findings_of_output env stdout url method host timestamp extension)
      as [fs0 | e] eqn:Hout; cbn [res_except].
    + intros [= <-]. by eapply findings_of_output_from_request.
    + destruct (is_exn JSONDecodeError e); cbn [res_except];
        [intros H; injection H as <-; apply Forall_nil_2 |].
      destruct (is_exn SubprocessError e);
        intros H; [injection H as <-; apply Forall_nil_2 | discriminate H].
  - destruct (is_exn SubprocessError e);
      intros H; [injection H as <-; apply Forall_nil_2 | discriminate H].
Qed.

Lemma scan_rulesets_from_request (rulesets : list string) (path extension : string) :
  ∀ acc fs,
    Forall (from_request url method host timestamp extension) acc →
    scan_rulesets env rulesets path url method host timestamp extension acc = Ok fs →
    Forall (from_request url method host timestamp extension) fs.
Proof.
  induction rulesets as [|r rest IH]; intros acc fs Hacc; cbn [scan_rulesets].
  - by intros [= <-].
  - destruct (scan_ruleset env r path url method host timestamp extension) as [new|] eqn:Hr;
      cbn [mbind res_bind]; [| done].
    apply IH. apply Forall_app. split; [done |]. by eapply scan_ruleset_from_request.
Qed.

Lemma scan_ruleset_soft (ruleset path extension : string) :
  soft_failure env ruleset path →
  scan_ruleset env ruleset path url method host timestamp extension = Ok [].
Proof.
  unfold soft_failure, scan_ruleset, findings_of_output.
  intros [-> | H]; [done |]. destruct (path_exists env ruleset); [| done].
  destruct H as [-> | (stdout & -> & Hload)]; [done |].
  cbn [mbind res_bind]. by rewrite Hload.
Qed.

Lemma scan_rulesets_app (before after : list string) (path extension : string) :
  ∀ acc,
    scan_rulesets env (before ++ after) path url method host timestamp extension acc
    = (mid ← scan_rulesets env before path url method host timestamp extension acc;
       scan_rulesets env after path url method host timestamp extension mid).
Proof.
  induction before as [|r rest IH]; intros acc; cbn [app scan_rulesets]; [done |].
  destruct (scan_ruleset env r path url method host timestamp extension);
    cbn [mbind res_bind]; [apply IH | done].
Qed.

End Invoker.

Section InvokerCases.

Variables (env : Env) (content : string) (url method host : value)
          (content_type : string) (timestamp : value) (st : state).

Lemma state_files_id : set_files (files st) st = st.
Proof. by destruct st. Qed.

(** Every way through [run_semgrep_analysis]. *)
Lemma run_semgrep_analysis_cases :
  let run := run_semgrep_analysis env content url method host content_type timestamp st in
  (semgrep_initialized st = false ∧ run = (st, Ok []))
  ∨ (semgrep_initialized st = true
     ∧ ∃ e, choose_extension content_type url = Raise e ∧ run = (st, Ok []))
  ∨ (semgrep_initialized st = true
     ∧ ∃ extension, choose_extension content_type url = Ok extension ∧
       let path := temp_file_path env extension in
       let written := set_files (<[path := content]> (files st)) st in
       (open_ok env path = false ∧ run = (st, Ok []))
       ∨ (open_ok env path = true ∧ write_ok env path content = false
          ∧ run = (set_files (<[path := ""]> (files st)) st, Ok []))
       ∨ (open_ok env path = true ∧ write_ok env path content = true
          ∧ ((∃ e, resolve_rulesets env extension = Raise e ∧ run = (written, Ok []))
             ∨ ∃ rulesets, resolve_rulesets env extension = Ok rulesets ∧
                 let scan :=
                   if bool_decide (rulesets = []) then Ok []
                   else scan_rulesets env rulesets path url method host timestamp
                          extension [] in
                 (∃ e, scan = Raise e ∧ run = (written, Ok []))
                 ∨ (∃ findings, scan = Ok findings ∧
                      run = (if unlink_ok env path
                             then set_files (delete path (files st)) st
                             else written, Ok findings))))).
Proof.
  cbv zeta. unfold run_semgrep_analysis, try_except, write_temp_file, unlink.
  unfold mbind, M_bind, bind, get, lift, mret, M_ret, ret, any_exception.
  destruct (semgrep_initialized st) eqn:Hinit; cbn [negb]; [| by left].
  right. destruct (choose_extension content_type url) as [extension | e] eqn:Hext;
    [right | left; split; [done |]; by exists e].
  split; [done |]. exists extension. split; [done |].
  destruct (open_ok env (temp_file_path env extension)) eqn:Hopen; [right | by left].
  destruct (write_ok env (temp_file_path env extension) content) eqn:Hwrite;
    [right | by left].
  split; [done |]. split; [done |].
  destruct (resolve_rulesets env extension) as [rulesets | e] eqn:Hres;
    [right | left; by exists e].
  exists rulesets. split; [done |].
  destruct (if bool_decide (rulesets = []) then Ok []
            else scan_rulesets env rulesets (temp_file_path env extension) url method host
                   timestamp extension []) as [findings | e] eqn:Hscan;
    [right | left; by exists e].
  exists findings. split; [done |]. cbn [files set_files].
  rewrite lookup_insert_eq, bool_decide_eq_true_2 by eauto. rewrite andb_true_r.
  destruct (unlink_ok env (temp_file_path env extension)); cbn [is_exn].
  - by rewrite (delete_insert_eq (files st)).
  - done.
Qed.

End InvokerCases.

(** X5. [run_semgrep_analysis] never raises. It changes nothing of the state
    but the files, and among the files only the scratch file of this call;
    when the engine was not initialised it changes nothing at all and
    returns the empty list. *)
Theorem invoker_never_raises (env : Env) (content : string) (url method host : value)
    (content_type : string) (timestamp : value) (st : state) :
  ∃ st' findings,
    run_semgrep_analysis env content url method host content_type timestamp st
      = (st', Ok findings)
    ∧ sast_findings st' = sast_findings st
    ∧ sast_scanning st' = sast_scanning st
    ∧ timers st' = timers st
    ∧ semgrep_initialized st' = semgrep_initialized st
    ∧ (∀ p, (∀ extension, choose_extension content_type url = Ok extension →
               p ≠ temp_file_path env extension) →
            files st' !! p = files st !! p)
    ∧ (semgrep_initialized st = false → st' = st ∧ findings = []).
Proof.
  destruct (run_semgrep_analysis_cases env content url method host content_type timestamp st)
    as [[Hinit ->] | [(Hinit & e & He & ->) | (Hinit & extension & Hext & Hcases)]].
  - by eexists _, _.
  - eexists _, _. repeat split; try done; congruence.
  - cbv zeta in Hcases.
    assert (∀ p, (∀ x, Ok extension = Ok x → p ≠ temp_file_path env x) →
                 p ≠ temp_file_path env extension) as Hp by (intros p H; by apply H).
    rewrite Hext.
    destruct Hcases as [[_ ->] | [(_ & _ & ->) | (_ & _ & [(e & _ & ->) |
      (rulesets & _ & [(e & _ & ->) | (findings & _ & ->)])])]];
      try destruct (unlink_ok env (temp_file_path env extension));
      eexists _, _; (split; [reflexivity |]); repeat split; try done; try congruence;
      intros p H; cbn [files set_files];
      first [rewrite lookup_delete_ne | rewrite lookup_insert_ne]; try done;
      intros Heq; by apply (Hp p H).
Qed.

(** X6. Every finding [run_semgrep_analysis] returns carries the url, the
    method and the timestamp of the request, the host or the empty string as
    version, the source SEMGREP, the chosen extension without its dot in
    upper case as tech, and one of the three severities. *)
Theorem invoker_findings_from_request (env : Env) (content : string)
    (url method host : value) (content_type : string) (timestamp : value) (st : state)
    (findings : list Finding) (f : Finding) :
  (run_semgrep_analysis env content url method host content_type timestamp st).2
    = Ok findings →
  f ∈ findings →
  ∃ extension,
    choose_extension content_type url = Ok extension
    ∧ extension ∈ supported_extensions
    ∧ from_request url method host timestamp extension f.
Proof.
  intros Hrun Hf.
  destruct (run_semgrep_analysis_cases env content url method host content_type timestamp st)
    as [[_ Hr] | [(_ & e & _ & Hr) | (_ & extension & Hext & Hcases)]].
  - rewrite Hr in Hrun. injection Hrun as <-. by apply elem_of_nil in Hf.
  - rewrite Hr in Hrun. injection Hrun as <-. by apply elem_of_nil in Hf.
  - cbv zeta in Hcases.
    destruct Hcases as [[_ Hr] | [(_ & _ & Hr) | (_ & _ & [(e & _ & Hr) |
      (rulesets & Hres & [(e & _ & Hr) | (found & Hscan & Hr)])])]];
      rewrite Hr in Hrun; injection Hrun as <-; try by apply elem_of_nil in Hf.
    case_bool_decide as Hnil; [injection Hscan as <-; by apply elem_of_nil in Hf |].
    exists extension. split; [done |]. split.
    + unfold supported_extensions. unfold resolve_rulesets in Hres.
      destruct (String.eqb_spec extension ".js") as [-> |]; [by repeat constructor |].
      destruct (String.eqb_spec extension ".html") as [-> |]; [by repeat constructor |].
      destruct (String.eqb_spec extension ".php") as [-> |]; [by repeat constructor |].
      destruct (String.eqb_spec extension ".py") as [-> |]; [by repeat constructor |].
      by injection Hres as <-.
    + apply scan_rulesets_from_request in Hscan; [| constructor].
      rewrite Forall_forall in Hscan. by apply Hscan.
Qed.

Lemma invoker_findings_from_request_witness :
  ∃ extension,
    choose_extension "application/javascript" (VStr "http://x/a.js") = Ok extension
    ∧ extension ∈ supported_extensions
    ∧ from_request (VStr "http://x/a.js") (VStr "GET") (VStr "x") (VInt 1000) extension
        eval_finding.
Proof.
  apply (invoker_findings_from_request env_eval "eval(userInput)" (VStr "http://x/a.js")
           (VStr "GET") (VStr "x") "application/javascript" (VInt 1000) state_ready
           [eval_finding; eval_finding] eval_finding).
  - vm_compute. reflexivity.
  - by constructor.
Defined.

Lemma run_semgrep_analysis_no_rules (env : Env) (content : string) (url method host : value)
    (content_type : string) (timestamp : value) (st : state) (extension : string) :
  choose_extension content_type url = Ok extension →
  extension ∉ supported_extensions →
  (run_semgrep_analysis env content url method host content_type timestamp st).2 = Ok [].
Proof.
  intros Hext Hnot.
  destruct (run_semgrep_analysis_cases env content url method host content_type timestamp st)
    as [[_ ->] | [(_ & e & _ & ->) | (_ & extension' & Hext' & Hcases)]]; [done | done |].
  assert (extension' = extension) as -> by congruence.
  assert (resolve_rulesets env extension = Ok []) as Hres.
  { unfold supported_extensions in Hnot. rewrite !not_elem_of_cons in Hnot.
    destruct Hnot as (H1 & H2 & H3 & H4 & _). unfold resolve_rulesets.
    by rewrite (proj2 (String.eqb_neq _ _) H1), (proj2 (String.eqb_neq _ _) H2),
               (proj2 (String.eqb_neq _ _) H3), (proj2 (String.eqb_neq _ _) H4). }
  cbv zeta in Hcases. rewrite Hres in Hcases.
  destruct Hcases as [[_ ->] | [(_ & _ & ->) | (_ & _ & [(e & _ & ->) |
    (rulesets & [= <-] & [(e & _ & ->) | (found & Hscan & ->)])])]]; try done.
  all: rewrite bool_decide_eq_true_2 in Hscan by done; by injection Hscan as <-.
Qed.

Lemma choose_extension_json (content_type : string) (url : value) :
  ¬ substr "html" content_type → ¬ substr "javascript" content_type →
  substr "json" content_type →
  choose_extension content_type url = Ok ".json" ∧ ".json" ∉ supported_extensions.
Proof.
  intros Hhtml Hjs Hjson. split.
  - unfold choose_extension.
    apply contains_false in Hhtml, Hjs. apply contains_spec in Hjson.
    by rewrite Hhtml, Hjs, Hjson.
  - unfold supported_extensions. rewrite !not_elem_of_cons. repeat split; try done.
    apply not_elem_of_nil.
Qed.

(** X7. When the chosen extension has no rules (.txt, .json) the engine is
    not run: whatever the environment and the state, the call returns the
    empty list. A content type that contains json but neither html nor
    javascript is such a case. *)
Theorem no_rules_no_findings (env : Env) (content : string) (url method host : value)
    (content_type : string) (timestamp : value) (st : state) :
    (∀ extension,
       choose_extension content_type url = Ok extension →
       extension ∉ supported_extensions →
       (run_semgrep_analysis env content url method host content_type timestamp st).2 = Ok [])
  ∧ (¬ substr "html" content_type → ¬ substr "javascript" content_type →
     substr "json" content_type →
       (run_semgrep_analysis env content url method host content_type timestamp st).2 = Ok []).
Proof.
  split; [apply run_semgrep_analysis_no_rules |].
  intros Hhtml Hjs Hjson.
  destruct (choose_extension_json content_type url Hhtml Hjs Hjson) as [Hext Hnot].
  by apply (run_semgrep_analysis_no_rules _ _ _ _ _ _ _ _ ".json").
Qed.

(** X8. The loop over the rulesets: a ruleset that is not on disk, whose
    engine run exits with an error, or whose output is not JSON contributes
    no finding and the loop goes on as if it were not in the list. *)
Theorem soft_failures_isolated (env : Env) (before after : list string)
    (ruleset path : string) (url method host timestamp : value) (extension : string)
    (acc : list Finding) :
  soft_failure env ruleset path →
  scan_rulesets env (before ++ ruleset :: after) path url method host timestamp extension acc
  = scan_rulesets env (before ++ after) path url method host timestamp extension acc.
Proof.
  intros Hsoft. rewrite !scan_rulesets_app.
  destruct (scan_rulesets env before path url method host timestamp extension acc)
    as [mid|]; cbn [mbind res_bind scan_rulesets]; [| done].
  rewrite scan_ruleset_soft by done. cbn [mbind res_bind]. by rewrite app_nil_r.
Qed.

Lemma soft_failures_isolated_witness :
  scan_rulesets env_eval (["/srv/semgrep-rules/javascript/security"]
                          ++ "/srv/semgrep-rules/javascript/lang" :: [])
    "/srv/temp_sast/f.js" (VStr "http://x/a.js") (VStr "GET") (VStr "x") (VInt 1000) ".js" []
  = scan_rulesets env_eval (["/srv/semgrep-rules/javascript/security"] ++ [])
      "/srv/temp_sast/f.js" (VStr "http://x/a.js") (VStr "GET") (VStr "x") (VInt 1000) ".js" [].
Proof.
  apply (soft_failures_isolated env_eval ["/srv/semgrep-rules/javascript/security"] []
           "/srv/semgrep-rules/javascript/lang" "/srv/temp_sast/f.js").
  left. vm_compute. reflexivity.
Defined.

Lemma scan_rulesets_raise (env : Env) (before after : list string) (ruleset path : string)
    (url method host timestamp : value) (extension : string) (found : list Finding) (e : exn) :
  scan_rulesets env before path url method host timestamp extension [] = Ok found →
  scan_ruleset env ruleset path url method host timestamp extension = Raise e →
  scan_rulesets env (before ++ ruleset :: after) path url method host timestamp extension []
  = Raise e.
Proof.
  intros Hbefore Hraise. rewrite scan_rulesets_app, Hbefore.
  cbn [mbind res_bind scan_rulesets]. by rewrite Hraise.
Qed.

(** X9. An exception that escapes a ruleset (anything but the engine's exit
    status and unparsable output, for instance an output without [results])
    ends the call with the empty list: the findings of the rulesets scanned
    before it are dropped, and the scratch file is left on disk. *)
Theorem hard_failure_drops_findings (env : Env) (content : string) (url method host : value)
    (content_type : string) (timestamp : value) (st : state) (extension : string)
    (before after : list string) (ruleset : string) (found : list Finding) (e : exn) :
  let path := temp_file_path env extension in
  semgrep_initialized st = true →
  choose_extension content_type url = Ok extension →
  open_ok env path = true →
  write_ok env path content = true →
  resolve_rulesets env extension = Ok (before ++ ruleset :: after) →
  scan_rulesets env before path url method host timestamp extension [] = Ok found →
  scan_ruleset env ruleset path url method host timestamp extension = Raise e →
  run_semgrep_analysis env content url method host content_type timestamp st
  = (set_files (<[path := content]> (files st)) st, Ok []).
Proof.
  intros path Hinit Hext Hopen Hwrite Hres Hbefore Hraise.
  pose proof (scan_rulesets_raise env before after ruleset path url method host timestamp
                extension found e Hbefore Hraise) as Hscan.
  destruct (run_semgrep_analysis_cases env content url method host content_type timestamp st)
    as [[Hinit' _] | [(_ & e' & He' & _) | (_ & extension' & Hext' & Hcases)]];
    [congruence | congruence |].
  assert (extension' = extension) as -> by congruence.
  cbv zeta in Hcases. fold path in Hcases. rewrite Hres, Hopen, Hwrite in Hcases.
  destruct Hcases as [[? _] | [(_ & ? & _) | (_ & _ & [(e' & ? & _) |
    (rulesets & [= <-] & Hcases)])]]; try done.
  rewrite Hscan, bool_decide_eq_false_2 in Hcases by (by destruct before).
  by destruct Hcases as [(e' & _ & ->) | (found' & ? & _)].
Qed.

Lemma hard_failure_drops_findings_witness :
  run_semgrep_analysis env_eval_then_broken "eval(userInput)" (VStr "http://x/a.js")
    (VStr "GET") (VStr "x") "application/javascript" (VInt 1000) state_ready
  = (set_files (<[temp_file_path env_eval_then_broken ".js" := "eval(userInput)"]>
                  (files state_ready)) state_ready, Ok []).
Proof.
  apply (hard_failure_drops_findings env_eval_then_broken "eval(userInput)"
           (VStr "http://x/a.js") (VStr "GET") (VStr "x") "application/javascript"
           (VInt 1000) state_ready ".js"
           ["/srv/semgrep-rules/javascript/security"]
           []
           "/srv/semgrep-rules/javascript/lang"
           [eval_finding] KeyError); vm_compute; reflexivity.
Defined.

(** ** The pipeline, every way through *)

Section Pipeline.

Implicit Types (reg l : list dict) (item e : dict) (url status : value) (st : state).

Lemma set_first_status_ok url status l :
  keyed l → (set_first_status url status l).2 = Ok tt.
Proof.
  unfold keyed. induction 1 as [|item rest [u Hu] _ IH]; [done |].
  cbn [set_first_status]. unfold dict_item. rewrite Hu.
  destruct (py_eq u url); [done |].
  by destruct (set_first_status url status rest).
Qed.

Lemma update_scanning_item_status_keyed url status st :
  keyed (sast_scanning st) →
  update_scanning_item_status url status st
  = (set_scanning (set_first_status url status (sast_scanning st)).1 st,
     Ok (set_first_status url status (sast_scanning st)).1).
Proof.
  intros Hkeyed. pose proof (set_first_status_ok url status _ Hkeyed) as Hok.
  unfold update_scanning_item_status.
  destruct (set_first_status url status (sast_scanning st)) as [l r].
  cbn [fst snd] in *. by rewrite Hok.
Qed.

Lemma set_first_status_entries url status l e :
  url ≠ VNaN → keyed l → entries_for url l = [e] →
  entries_for url (set_first_status url status l).1 = [<["status" := status]> e].
Proof.
  intros Hnan. unfold keyed, entries_for. induction 1 as [|item rest [u Hu] _ IH]; [done |].
  cbn [set_first_status]. unfold dict_item. rewrite Hu, filter_cons.
  destruct (py_eq u url) eqn:Heq.
  - apply py_eq_true in Heq as [-> _].
    rewrite decide_True by done. intros [= -> Hrest]. cbn [fst].
    rewrite filter_cons, decide_True by (by rewrite lookup_insert_ne). by rewrite Hrest.
  - assert (u ≠ url) as Hne by (intros ->; by rewrite py_eq_refl in Heq).
    rewrite decide_False by congruence. intros Hrest.
    destruct (set_first_status url status rest) as [rest' r]. cbn [fst] in *.
    rewrite filter_cons, decide_False by congruence. by apply IH.
Qed.

(** The url [nan] matches no entry: the loop of lines 275-278 changes none. *)
Lemma set_first_status_nan status l :
  keyed l → (set_first_status VNaN status l).1 = l.
Proof.
  unfold keyed. induction 1 as [|item rest [u Hu] _ IH]; [done |].
  cbn [set_first_status]. unfold dict_item. rewrite Hu, py_eq_nan.
  destruct (set_first_status VNaN status rest) as [rest' r]. cbn [fst] in *. by rewrite IH.
Qed.

Lemma keyed_set_first_status url status l :
  keyed l → keyed (set_first_status url status l).1.
Proof. intros H. by rewrite keyed_urls, urls_set_first_status, <- keyed_urls. Qed.

Lemma length_set_first_status url status l :
  length (set_first_status url status l).1 = length l.
Proof.
  rewrite <- (length_fmap (λ d : dict, d !! "url")).
  fold (urls (set_first_status url status l).1).
  rewrite urls_set_first_status. unfold urls. by rewrite length_fmap.
Qed.

Lemma registry_ok_upsert item url l :
  item !! "url" = Some url → registry_ok l →
  registry_ok (capped MAX_SCANNING_ITEMS (others url l ++ [item])).
Proof.
  intros Hurl (Hk & Hnd & Hlen). split; [| split].
  - apply keyed_capped, Forall_app. split; [by apply keyed_others |].
    by constructor; [eexists | constructor].
  - by apply real_urls_upsert.
  - pose proof (length_others url l) as Hf. unfold capped.
    destruct (Nat.ltb_spec MAX_SCANNING_ITEMS (length (others url l ++ [item])))
      as [Hlt | Hle]; [| done].
    rewrite length_drop, length_app. cbn [length]. lia.
Qed.

Lemma registry_ok_others url l : registry_ok l → registry_ok (others url l).
Proof.
  intros (Hk & Hnd & Hlen). split; [by apply keyed_others |]. split.
  - eapply sublist_NoDup; [exact Hnd | apply real_urls_sublist, urls_others_sublist].
  - pose proof (length_others url l). lia.
Qed.

Lemma registry_ok_status url status l :
  registry_ok l → registry_ok (set_first_status url status l).1.
Proof.
  intros (Hk & Hnd & Hlen). split; [by apply keyed_set_first_status |].
  split; [unfold real_urls; by rewrite urls_set_first_status
         | by rewrite length_set_first_status].
Qed.

Lemma scanning_item_url env (record headers : dict) :
  scanning_item env record headers !! "url" = Some (dict_get record "url" (VStr "")).
Proof. unfold scanning_item. cbv zeta. by rewrite lookup_insert_eq. Qed.

Lemma run_semgrep_analysis_files env content url method host content_type timestamp st :
  ∃ f fs,
    run_semgrep_analysis env content url method host content_type timestamp st
    = (set_files f st, Ok fs)
    ∧ (semgrep_initialized st = false → f = files st ∧ fs = []).
Proof.
  destruct (run_semgrep_analysis_cases env content url method host content_type timestamp st)
    as [[Hinit ->] | [(Hinit & e & He & ->) | (Hinit & extension & Hext & Hcases)]].
  - exists (files st), []. by rewrite state_files_id.
  - exists (files st), []. rewrite state_files_id. split; [done | congruence].
  - cbv zeta in Hcases.
    destruct Hcases as [[_ ->] | [(_ & _ & ->) | (_ & _ & [(e & _ & ->) |
      (rulesets & _ & [(e & _ & ->) | (findings & _ & ->)])])]];
      try destruct (unlink_ok env (temp_file_path env extension));
      first [ by eexists _, _; split; [reflexivity | congruence]
            | by exists (files st), []; rewrite state_files_id; split; [| congruence] ].
Qed.

End Pipeline.

Lemma analyze_sast_not_objects (env : Env) (st : state) (record : pyobj) (body : value)
    (headers : pyobj) :
  pyobj_truthy record = true → truthy body = true → not_objects record headers →
  analyze_sast env record body headers st = (st, Raise AttributeError).
Proof.
  intros Hrecord Hbody Hnot. unfold analyze_sast. rewrite Hrecord, Hbody. cbn [negb orb].
  destruct record as [d | t].
  - destruct Hnot as [Hnot | ->]; [by destruct (Hnot d) |].
    cbn [as_dict]. rewrite bind_lift_ok. cbv zeta.
    unfold or_empty_obj. cbn [pyobj_truthy as_dict]. by rewrite bind_lift_raise.
  - cbn [as_dict]. by rewrite bind_lift_raise.
Qed.

Lemma objects_or_not (record headers : pyobj) :
  not_objects record headers
  ∨ ∃ d, record = PyDict d ∧ headers ≠ PyOther true.
Proof.
  unfold not_objects. destruct record as [d | t]; [| by left; left].
  destruct headers as [h | []]; [| by left; right |]; right; by exists d.
Qed.

(** Every way through [analyze_sast] once the guard of line 310 is passed,
    for a record that is a JSON object and headers that are one, or falsy. *)
Lemma analyze_sast_cases (env : Env) (st : state) (record : dict) (body : value)
    (headers : pyobj) :
  headers ≠ PyOther true →
  dict_truthy record = true →
  truthy body = true →
  keyed (sast_scanning st) →
  (length (sast_findings st) ≤ MAX_SAST_FINDINGS)%nat →
  let hs := or_empty_dict headers in
  let url := dict_get record "url" (VStr "") in
  let ct := content_type_of hs in
  let reg1 := filed env record hs (sast_scanning st) in
  ∃ R f fs,
    analyze_sast env (PyDict record) body headers st
    = ({| sast_findings := lastn MAX_SAST_FINDINGS (sast_findings st ++ fs);
          sast_scanning := R;
          semgrep_initialized := semgrep_initialized st;
          files := f;
          timers := timers st ++ [url] |}, Ok fs)
    ∧ ((∃ e, is_js_flag ct url = Raise e
             ∧ R = (set_first_status url (VStr "error") reg1).1
             ∧ fs = [] ∧ f = files st)
       ∨ (∃ is_js, is_js_flag ct url = Ok is_js
             ∧ is_text_flag ct (is_html_flag ct) is_js = false
             ∧ R = others url reg1 ∧ fs = [] ∧ f = files st)
       ∨ (∃ is_js, is_js_flag ct url = Ok is_js
             ∧ is_text_flag ct (is_html_flag ct) is_js = true
             ∧ R = (set_first_status url (VStr "completed") reg1).1
             ∧ run_semgrep_analysis env (str (or_empty body)) url
                 (dict_get record "method" (VStr "")) (dict_get record "host" (VStr ""))
                 ct (timestamp_of env record) (set_scanning reg1 st)
               = (set_files f (set_scanning reg1 st), Ok fs))).
Proof.
  intros Hheaders Hrecord Hbody Hkeyed Hstore hs url ct reg1.
  assert (keyed reg1) as Hkeyed1.
  { apply keyed_capped, Forall_app. split; [by apply keyed_others |].
    constructor; [| constructor]. rewrite scanning_item_url. by eexists. }
  assert (lastn MAX_SAST_FINDINGS (sast_findings st ++ []) = sast_findings st) as Hsame
    by (by rewrite app_nil_r, lastn_all).
  unfold analyze_sast. cbn [pyobj_truthy]. rewrite Hrecord, Hbody. cbn [negb orb as_dict].
  rewrite bind_lift_ok, as_dict_or_empty by done. cbv zeta. rewrite bind_lift_ok.
  fold hs. fold url.
  unfold mbind at 1, M_bind, bind at 1.
  erewrite (add_scanning_item_keyed _ url) by (done || by rewrite lookup_insert_eq).
  cbv zeta. change (capped MAX_SCANNING_ITEMS _) with reg1.
  change (lower (str (dict_get hs "content-type" (VStr "")))) with ct.
  unfold try_finally, try_except, any_exception, start_timer, modify.
  unfold mbind at 1, M_bind, bind at 1, lift.
  destruct (is_js_flag ct url) as [is_js | e] eqn:Hjs.
  - destruct (is_text_flag ct (is_html_flag ct) is_js) eqn:Htext; cbn [negb orb].
    + destruct (run_semgrep_analysis_files env (str (or_empty body)) url
                  (dict_get record "method" (VStr "")) (dict_get record "host" (VStr ""))
                  ct (timestamp_of env record) (set_scanning reg1 st))
        as (f & fs & Hrun & _).
      exists (set_first_status url (VStr "completed") reg1).1, f, fs.
      split; [| right; right; by exists is_js].
      unfold timestamp_of in Hrun.
      unfold mbind at 1, M_bind, bind at 1. rewrite Hrun.
      assert (∀ l : list Finding,
                (if is_js || is_html_flag ct
                 then (if is_html_flag ct then ([] ++ l) ++ [] else [] ++ l) ++ []
                 else if is_html_flag ct then ([] ++ l) ++ [] else [] ++ l) ++ [] = l) as Hl.
      { intros l. destruct (is_js || is_html_flag ct), (is_html_flag ct);
          cbn [app]; by rewrite ?app_nil_r. }
      unfold analyze_html, analyze_javascript, analyze_generic.
      rewrite Hl. clear Hl.
      unfold mbind at 1, M_bind, bind at 1.
      rewrite update_scanning_item_status_keyed by done.
      cbn [sast_scanning set_scanning set_files].
      unfold mbind at 1, M_bind, bind at 1.
      case_bool_decide as Hfs.
      * subst fs. unfold mret, M_ret, ret. cbn. by rewrite Hsame.
      * rewrite add_sast_findings_spec by done. unfold mret, M_ret, ret. by cbn.
    + exists (others url reg1), (files st), []. split; [| right; left; by exists is_js].
      unfold mbind at 1, M_bind, bind at 1.
      rewrite remove_scanning_item_keyed by done.
      unfold mret, M_ret, ret. cbn. by rewrite Hsame.
  - exists (set_first_status url (VStr "error") reg1).1, (files st), [].
    split; [| left; by exists e].
    unfold mbind at 1, M_bind, bind at 1.
    rewrite update_scanning_item_status_keyed by done.
    unfold mret, M_ret, ret. cbn. by rewrite Hsame.
Qed.

Section PipelineFacts.

Variables (env : Env) (st : state) (record : dict) (body : value) (headers : pyobj).

Let hs := or_empty_dict headers.
Let url := dict_get record "url" (VStr "").
Let ct := content_type_of hs.

Lemma service_inv_registry : service_inv st → registry_ok (sast_scanning st).
Proof. by intros (? & ? & ? & ?). Qed.

Lemma filed_ok : service_inv st → registry_ok (filed env record hs (sast_scanning st)).
Proof.
  intros Hinv. apply registry_ok_upsert; [apply scanning_item_url |].
  by apply service_inv_registry.
Qed.

Lemma filed_entries :
  url ≠ VNaN →
  entries_for url (filed env record hs (sast_scanning st)) = [scanning_item env record hs].
Proof. intros Hnan. apply entries_for_capped_upsert; [apply scanning_item_url | done]. Qed.

Lemma fire_timer_keyed (s : state) (u : value) (rest : list value) :
  keyed (sast_scanning s) → timers s = u :: rest →
  fire_timer s = (set_timers rest (set_scanning (others u (sast_scanning s)) s), Ok tt).
Proof.
  intros Hkeyed Htimers. unfold fire_timer.
  unfold mbind at 1, M_bind, bind at 1, get. rewrite Htimers.
  unfold mbind at 1, M_bind, bind at 1, modify.
  unfold mbind at 1, M_bind, bind at 1.
  rewrite remove_scanning_item_keyed by done. by cbn.
Qed.

End PipelineFacts.

Lemma service_inv_empty (b : bool) (f : gmap string string) (t : list value) :
  service_inv {| sast_findings := []; sast_scanning := []; semgrep_initialized := b;
                 files := f; timers := t |}.
Proof.
  unfold service_inv. cbn [sast_findings sast_scanning length].
  split; [constructor |]. split; [constructor |]. unfold MAX_SCANNING_ITEMS, MAX_SAST_FINDINGS.
  split; lia.
Qed.

Lemma analyze_sast_state (env : Env) (st : state) (record : dict) (body : value)
    (headers : pyobj) :
  headers ≠ PyOther true →
  service_inv st → dict_truthy record = true → truthy body = true →
  ∃ st' fs,
    analyze_sast env (PyDict record) body headers st = (st', Ok fs)
    ∧ service_inv st'
    ∧ semgrep_initialized st' = semgrep_initialized st
    ∧ timers st' = timers st ++ [dict_get record "url" (VStr "")].
Proof.
  intros Hheaders Hinv Hrecord Hbody. pose proof Hinv as (Hkeyed & _ & _ & Hstore).
  destruct (analyze_sast_cases env st record body headers Hheaders Hrecord Hbody Hkeyed Hstore)
    as (R & f & fs & -> & HR).
  pose proof (filed_ok env st record headers Hinv) as Hfiled.
  eexists _, _. split; [done |]. split; [| done].
  assert (registry_ok R) as (? & ? & ?).
  { destruct HR as [(e & _ & -> & _) | [(is_js & _ & _ & -> & _) | (is_js & _ & _ & -> & _)]].
    - by apply registry_ok_status.
    - by apply registry_ok_others.
    - by apply registry_ok_status. }
  unfold service_inv. cbn [sast_findings sast_scanning].
  repeat split; try done. apply length_lastn_le.
Qed.

(** X10. From a state that satisfies [service_inv], [analyze_sast] raises in
    one case only: the guard of line 310 is passed and the record or the
    headers is a truthy value that is not a JSON object. It then raises
    [AttributeError] and the state is untouched: nothing was filed and no
    timer was started. In every other case it returns; the state it leaves
    satisfies [service_inv] again (every registry entry has a url, no url
    that is equal to itself is filed twice, both stores are within their
    caps) and the initialisation flag is what it was. *)
Theorem analyze_sast_keeps_invariant (env : Env) (st : state) (record : pyobj)
    (body : value) (headers : pyobj) :
  service_inv st →
  let passes := pyobj_truthy record = true ∧ truthy body = true in
    (passes → not_objects record headers →
       analyze_sast env record body headers st = (st, Raise AttributeError))
  ∧ (¬ (passes ∧ not_objects record headers) →
       ∃ st' fs,
         analyze_sast env record body headers st = (st', Ok fs)
         ∧ service_inv st'
         ∧ semgrep_initialized st' = semgrep_initialized st).
Proof.
  intros Hinv passes. subst passes. split.
  - intros [Hrecord Hbody] Hnot. by apply analyze_sast_not_objects.
  - intros Hok.
    destruct (pyobj_truthy record) eqn:Hrecord;
      [| exists st, []; split; [apply analyze_sast_guard; by left | done]].
    destruct (truthy body) eqn:Hbody;
      [| exists st, []; split; [apply analyze_sast_guard; by right | done]].
    destruct (objects_or_not record headers) as [Hnot | (d & -> & Hheaders)];
      [by destruct Hok |].
    cbn [pyobj_truthy] in Hrecord.
    destruct (analyze_sast_state env st d body headers Hheaders Hinv Hrecord Hbody)
      as (st' & fs & Hcall & Hinv' & Hflag & _).
    by exists st', fs.
Qed.

(** A record that is a string, headers that are a list, and a request as
    it should be. *)
Lemma analyze_sast_keeps_invariant_witness :
    analyze_sast env_eval (PyOther true) (VStr "eval(userInput)") (PyDict headers_js)
      state_ready = (state_ready, Raise AttributeError)
  ∧ analyze_sast env_eval (PyDict record_a) (VStr "eval(userInput)") (PyOther true)
      state_ready = (state_ready, Raise AttributeError)
  ∧ ∃ st' fs,
      analyze_sast env_eval (PyDict record_a) (VStr "eval(userInput)") (PyDict headers_js)
        state_ready = (st', Ok fs)
      ∧ service_inv st'
      ∧ semgrep_initialized st' = semgrep_initialized state_ready.
Proof.
  pose proof (service_inv_empty true ∅ []) as Hinv.
  split; [| split].
  - apply (analyze_sast_keeps_invariant env_eval state_ready (PyOther true)
             (VStr "eval(userInput)") (PyDict headers_js) Hinv).
    + split; vm_compute; reflexivity.
    + left. discriminate.
  - apply (analyze_sast_keeps_invariant env_eval state_ready (PyDict record_a)
             (VStr "eval(userInput)") (PyOther true) Hinv).
    + split; vm_compute; reflexivity.
    + right. reflexivity.
  - apply (analyze_sast_keeps_invariant env_eval state_ready (PyDict record_a)
             (VStr "eval(userInput)") (PyDict headers_js) Hinv).
    intros [_ [Hnot | Hnot]]; [by destruct (Hnot record_a) | discriminate Hnot].
Defined.



(** X12. A record that is a JSON object whose url is [None] or a number (no
    string, and equal to itself), with headers that are a JSON object or
    falsy and a content type that contains neither javascript,
    application/json nor application/x-javascript: the [endswith] of line
    339 raises, the handler of line 378 takes over. [analyze_sast] returns
    the empty list, the item of the url stays in the registry with status
    error, the findings store and the files are untouched, and the timer is
    started. *)
Theorem analyze_sast_error_status (env : Env) (st : state) (record : dict) (body : value)
    (headers : pyobj) :
  let hs := or_empty_dict headers in
  let url := dict_get record "url" (VStr "") in
  let ct := content_type_of hs in
  service_inv st →
  headers ≠ PyOther true →
  dict_truthy record = true →
  truthy body = true →
  (∀ s, url ≠ VStr s) →
  url ≠ VNaN →
  ¬ substr "javascript" ct →
  ¬ substr "application/json" ct →
  ∃ st',
    analyze_sast env (PyDict record) body headers st = (st', Ok [])
    ∧ entries_for url (sast_scanning st')
        = [<["status" := VStr "error"]> (scanning_item env record hs)]
    ∧ sast_findings st' = sast_findings st
    ∧ files st' = files st
    ∧ timers st' = timers st ++ [url].
Proof.
  intros hs url ct Hinv Hheaders Hrecord Hbody Hurl Hnan Hjs Hjson.
  pose proof Hinv as (Hkeyed & _ & _ & Hstore).
  assert (is_js_flag ct url = Raise AttributeError) as Hflag.
  { unfold is_js_flag, url_endswith.
    assert (contains "application/x-javascript" ct = false) as ->.
    { apply contains_false. intros (a & b & Hab). apply Hjs.
      exists (a +:+ "application/x-"), b. rewrite Hab. by rewrite !app_assoc'. }
    apply contains_false in Hjs, Hjson. rewrite Hjs, Hjson.
    destruct url as [| z | s |]; [done | done | | done]. by destruct (Hurl s). }
  destruct (analyze_sast_cases env st record body headers Hheaders Hrecord Hbody Hkeyed Hstore)
    as (R & f & fs & -> & HR).
  fold hs url ct in HR. rewrite Hflag in HR.
  destruct HR as [(e & _ & -> & -> & ->) | [(is_js & ? & _) | (is_js & ? & _)]];
    [| done | done].
  eexists. split; [done |]. cbn [sast_findings sast_scanning timers files].
  split; [| split; [by rewrite app_nil_r, lastn_all | done]].
  apply set_first_status_entries; [done | | by apply filed_entries].
  by destruct (filed_ok env st record headers Hinv).
Qed.

Lemma analyze_sast_error_status_witness :
  ∃ st',
    analyze_sast env_eval (PyDict record_bad_url) (VStr "x") (PyDict headers_png) state_ready
      = (st', Ok [])
    ∧ entries_for (dict_get record_bad_url "url" (VStr "")) (sast_scanning st')
        = [<["status" := VStr "error"]>
             (scanning_item env_eval record_bad_url (or_empty_dict (PyDict headers_png)))]
    ∧ sast_findings st' = sast_findings state_ready
    ∧ files st' = files state_ready
    ∧ timers st' = timers state_ready ++ [dict_get record_bad_url "url" (VStr "")].
Proof.
  apply (analyze_sast_error_status env_eval state_ready record_bad_url (VStr "x")
           (PyDict headers_png)).
  - apply service_inv_empty.
  - discriminate.
  - vm_compute. reflexivity.
  - vm_compute. reflexivity.
  - intros s Hs. vm_compute in Hs. discriminate Hs.
  - vm_compute. discriminate.
  - apply contains_false. vm_compute. reflexivity.
  - apply contains_false. vm_compute. reflexivity.
Defined.

(** X13. The deferred cleanup. For a record that is a non-empty JSON object,
    headers that are a JSON object or falsy, and a body: the call of
    [analyze_sast] starts exactly one timer, whatever way it ends; with no
    other timer pending, once that timer has fired no timer is pending, the
    state satisfies [service_inv], and, when the url is equal to itself, no
    item of the url is left in the registry. For the url [nan] the callback
    removes nothing: the registry is what the call left. *)
Theorem deferred_removal (env : Env) (st : state) (record : dict) (body : value)
    (headers : pyobj) :
  let url := dict_get record "url" (VStr "") in
  let st' := (analyze_sast env (PyDict record) body headers st).1 in
  service_inv st →
  headers ≠ PyOther true →
  dict_truthy record = true →
  truthy body = true →
  timers st = [] →
  timers st' = [url]
  ∧ (fire_timer st').2 = Ok tt
  ∧ (url ≠ VNaN → entries_for url (sast_scanning (fire_timer st').1) = [])
  ∧ (url = VNaN → sast_scanning (fire_timer st').1 = sast_scanning st')
  ∧ timers (fire_timer st').1 = []
  ∧ service_inv (fire_timer st').1.
Proof.
  intros url st' Hinv Hheaders Hrecord Hbody Htimers. subst st'.
  pose proof Hinv as (Hkeyed & _ & _ & Hstore).
  destruct (analyze_sast_cases env st record body headers Hheaders Hrecord Hbody Hkeyed Hstore)
    as (R & f & fs & -> & HR).
  fold url in HR |- *. cbn [fst timers]. rewrite Htimers. cbn [app].
  pose proof (filed_ok env st record headers Hinv) as Hfiled.
  assert (registry_ok R) as HR'.
  { destruct HR as [(e & _ & -> & _) | [(is_js & _ & _ & -> & _) | (is_js & _ & _ & -> & _)]].
    - by apply registry_ok_status.
    - by apply registry_ok_others.
    - by apply registry_ok_status. }
  split; [done |].
  rewrite (fire_timer_keyed _ url []); [| by destruct HR' | done].
  cbn [fst snd sast_scanning set_scanning set_timers timers].
  split; [done |].
  split; [intros Hnan; by apply entries_for_none, not_in_urls_others |].
  split; [intros ->; apply others_nan |]. split; [done |].
  destruct (registry_ok_others url R HR') as (? & ? & ?).
  unfold service_inv. cbn [sast_findings sast_scanning].
  repeat split; try done. apply length_lastn_le.
Qed.

Lemma deferred_removal_witness :
  let url := dict_get record_a "url" (VStr "") in
  let st' := (analyze_sast env_eval (PyDict record_a) (VStr "eval(userInput)")
                (PyDict headers_js) state_ready).1 in
  timers st' = [url]
  ∧ (fire_timer st').2 = Ok tt
  ∧ (url ≠ VNaN → entries_for url (sast_scanning (fire_timer st').1) = [])
  ∧ (url = VNaN → sast_scanning (fire_timer st').1 = sast_scanning st')
  ∧ timers (fire_timer st').1 = []
  ∧ service_inv (fire_timer st').1.
Proof.
  apply (deferred_removal env_eval state_ready record_a (VStr "eval(userInput)")
           (PyDict headers_js)).
  - apply service_inv_empty.
  - discriminate.
  - vm_compute. reflexivity.
  - vm_compute. reflexivity.
  - reflexivity.
Defined.

(** X14. The timers are not tied to the item they were started for. When the
    same url, equal to itself, is analysed twice (records that are JSON
    objects, headers that are JSON objects or falsy) and the timer of the
    first call fires after the second call has ended, the item of the second
    call, completed and still within its two seconds, is removed; the second
    timer is left pending with nothing to remove. *)
Theorem early_removal (env1 env2 : Env) (st : state) (record1 record2 : dict)
    (body1 body2 : value) (headers1 headers2 : pyobj) (is_js : bool) :
  let url := dict_get record2 "url" (VStr "") in
  let ct := content_type_of (or_empty_dict headers2) in
  let st1 := (analyze_sast env1 (PyDict record1) body1 headers1 st).1 in
  let st2 := (analyze_sast env2 (PyDict record2) body2 headers2 st1).1 in
  let st3 := (fire_timer st2).1 in
  service_inv st →
  timers st = [] →
  headers1 ≠ PyOther true → headers2 ≠ PyOther true →
  dict_truthy record1 = true → truthy body1 = true →
  dict_truthy record2 = true → truthy body2 = true →
  dict_get record1 "url" (VStr "") = url →
  url ≠ VNaN →
  is_js_flag ct url = Ok is_js →
  is_text_flag ct (is_html_flag ct) is_js = true →
  entries_for url (sast_scanning st2)
    = [<["status" := VStr "completed"]>
         (scanning_item env2 record2 (or_empty_dict headers2))]
  ∧ entries_for url (sast_scanning st3) = []
  ∧ timers st3 = [url].
Proof.
  intros url ct st1 st2 st3 Hinv Htimers Hh1 Hh2 Hr1 Hb1 Hr2 Hb2 Hsame Hnan Hjs Htext.
  destruct (analyze_sast_state env1 st record1 body1 headers1 Hh1 Hinv Hr1 Hb1)
    as (s1 & fs1 & Hcall1 & Hinv1 & _ & Ht1).
  subst st1 st2 st3. rewrite Hcall1. cbn [fst].
  rewrite Htimers, Hsame in Ht1. cbn [app] in Ht1.
  pose proof Hinv1 as (Hkeyed1 & _ & _ & Hstore1).
  destruct (analyze_sast_cases env2 s1 record2 body2 headers2 Hh2 Hr2 Hb2 Hkeyed1 Hstore1)
    as (R & f & fs & Hcall2 & HR).
  fold url ct in HR, Hcall2.
  destruct HR as [(e & He & _) | [(is_js' & Hjs' & Htext' & _) |
                                  (is_js' & Hjs' & _ & -> & Hrun)]];
    [congruence | congruence |].
  rewrite Hcall2. cbn [fst sast_scanning].
  pose proof (filed_ok env2 s1 record2 headers2 Hinv1) as (Hkf & _ & _).
  split.
  { apply set_first_status_entries; [done | done | by apply filed_entries]. }
  rewrite (fire_timer_keyed _ url [url]);
    [| by apply keyed_set_first_status | by cbn; rewrite Ht1].
  cbn [fst sast_scanning set_scanning set_timers timers].
  split; [by apply entries_for_none, not_in_urls_others | done].
Qed.

Lemma early_removal_witness :
  let url := dict_get record_a "url" (VStr "") in
  let st1 := (analyze_sast env_quiet (PyDict record_a) (VStr "eval(userInput)")
                (PyDict headers_js) state_ready).1 in
  let st2 := (analyze_sast env_eval (PyDict record_a) (VStr "eval(userInput)")
                (PyDict headers_js) st1).1 in
  let st3 := (fire_timer st2).1 in
  entries_for url (sast_scanning st2)
    = [<["status" := VStr "completed"]>
         (scanning_item env_eval record_a (or_empty_dict (PyDict headers_js)))]
  ∧ entries_for url (sast_scanning st3) = []
  ∧ timers st3 = [url].
Proof.
  apply (early_removal env_quiet env_eval state_ready record_a record_a
           (VStr "eval(userInput)") (VStr "eval(userInput)")
           (PyDict headers_js) (PyDict headers_js) true).
  - apply service_inv_empty.
  - reflexivity.
  - discriminate.
  - discriminate.
  - vm_compute. reflexivity.
  - vm_compute. reflexivity.
  - vm_compute. reflexivity.
  - vm_compute. reflexivity.
  - reflexivity.
  - vm_compute. discriminate.
  - vm_compute. reflexivity.
  - vm_compute. reflexivity.
Defined.

(** X15. Fail open. While the engine is not initialised, [analyze_sast]
    returns no finding, for any request: it returns the empty list, or it
    raises [AttributeError] on a record or headers that is not a JSON object
    and leaves the state untouched. It writes no file and adds nothing to
    the findings store; the flag stays off, so this lasts until
    [initialize_semgrep] is run. *)
Theorem uninitialised_service_finds_nothing (env : Env) (st : state)
    (record : pyobj) (body : value) (headers : pyobj) :
  service_inv st →
  semgrep_initialized st = false →
  ∃ st' r,
    analyze_sast env record body headers st = (st', r)
    ∧ (r = Ok [] ∨ (r = Raise AttributeError ∧ st' = st))
    ∧ (r = Ok [] ↔ ¬ ((pyobj_truthy record = true ∧ truthy body = true)
                      ∧ not_objects record headers))
    ∧ sast_findings st' = sast_findings st
    ∧ files st' = files st
    ∧ semgrep_initialized st' = false.
Proof.
  intros Hinv Hoff.
  destruct (pyobj_truthy record) eqn:Hrecord;
    [| exists st, (Ok []); split; [apply analyze_sast_guard; by left |];
       split; [by left |]; split; [| done]; split; [by intros _ [[? _] _] | done]].
  destruct (truthy body) eqn:Hbody;
    [| exists st, (Ok []); split; [apply analyze_sast_guard; by right |];
       split; [by left |]; split; [| done]; split; [by intros _ [[_ ?] _] | done]].
  destruct (objects_or_not record headers) as [Hnot | (d & -> & Hheaders)].
  { exists st, (Raise AttributeError). split; [by apply analyze_sast_not_objects |].
    split; [by right |]. split; [| done]. split; [done |]. intros Hno. by destruct Hno. }
  cbn [pyobj_truthy] in Hrecord.
  pose proof Hinv as (Hkeyed & _ & _ & Hstore).
  destruct (analyze_sast_cases env st d body headers Hheaders Hrecord Hbody Hkeyed Hstore)
    as (R & f & fs & -> & HR).
  assert (fs = [] ∧ f = files st) as [-> ->].
  { destruct HR as [(e & _ & _ & -> & ->) | [(is_js & _ & _ & _ & -> & ->) |
                                             (is_js & _ & _ & _ & Hrun)]]; [done | done |].
    match type of Hrun with run_semgrep_analysis ?e ?c ?u ?m ?h ?t ?ts ?s = _ =>
      destruct (run_semgrep_analysis_files e c u m h t ts s) as (f' & fs' & Hrun' & Hno) end.
    rewrite Hrun' in Hrun. destruct (Hno Hoff) as [-> ->].
    injection Hrun as <- <-. done. }
  eexists _, _. split; [done |]. cbn [sast_findings files semgrep_initialized].
  split; [by left |]. split; [| by rewrite app_nil_r, lastn_all].
  split; [| done]. intros _ [_ [Hnot | ->]]; [by destruct (Hnot d) | done].
Qed.

Lemma uninitialised_service_finds_nothing_witness :
  ∃ st' r,
    analyze_sast env_eval (PyDict record_a) (VStr "eval(userInput)") (PyDict headers_js)
      initial_state = (st', r)
    ∧ (r = Ok [] ∨ (r = Raise AttributeError ∧ st' = initial_state))
    ∧ (r = Ok [] ↔ ¬ ((pyobj_truthy (PyDict record_a) = true
                       ∧ truthy (VStr "eval(userInput)") = true)
                      ∧ not_objects (PyDict record_a) (PyDict headers_js)))
    ∧ sast_findings st' = sast_findings initial_state
    ∧ files st' = files initial_state
    ∧ semgrep_initialized st' = false.
Proof.
  apply (uninitialised_service_finds_nothing env_eval initial_state (PyDict record_a)
           (VStr "eval(userInput)") (PyDict headers_js)).
  - apply service_inv_empty.
  - reflexivity.
Defined.

(** X16. JSON bodies pass the eligibility test (application/json counts as
    JavaScript) but are never scanned: for a content type that contains json
    and neither html nor javascript the scratch file gets the extension
    .json, which has no rules. [analyze_sast] returns the empty list and the
    findings store is what it was, whatever the engine would report. *)
Theorem json_bodies_yield_nothing (env : Env) (st : state) (record : dict) (body : value)
    (headers : option dict) :
  let ct := content_type_of (or_empty_dict (of_option headers)) in
  service_inv st →
  dict_truthy record = true →
  truthy body = true →
  ¬ substr "html" ct → ¬ substr "javascript" ct → substr "json" ct →
  (analyze_sast env (PyDict record) body (of_option headers) st).2 = Ok []
  ∧ sast_findings (analyze_sast env (PyDict record) body (of_option headers) st).1
    = sast_findings st.
Proof.
  intros ct Hinv Hrecord Hbody Hhtml Hjs Hjson.
  pose proof Hinv as (Hkeyed & _ & _ & Hstore).
  assert (of_option headers ≠ PyOther true) as Hheaders by (by destruct headers).
  destruct (analyze_sast_cases env st record body (of_option headers) Hheaders Hrecord Hbody
              Hkeyed Hstore)
    as (R & f & fs & -> & HR).
  fold ct in HR.
  assert (fs = []) as ->.
  { destruct HR as [(e & _ & _ & -> & _) | [(is_js & _ & _ & _ & -> & _) |
                                            (is_js & _ & _ & _ & Hrun)]]; [done | done |].
    destruct (choose_extension_json ct (dict_get record "url" (VStr "")) Hhtml Hjs Hjson)
      as [Hext Hnot].
    match type of Hrun with run_semgrep_analysis ?e ?c ?u ?m ?h ?t ?ts ?s = _ =>
      pose proof (run_semgrep_analysis_no_rules e c u m h t ts s ".json" Hext Hnot) as Hno end.
    rewrite Hrun in Hno. by injection Hno as ->. }
  cbn [fst snd sast_findings]. by rewrite app_nil_r, lastn_all.
Qed.

Lemma json_bodies_yield_nothing_witness :
  (analyze_sast env_eval (PyDict record_a) (VStr "{}") (PyDict headers_json) state_ready).2
    = Ok []
  ∧ sast_findings
      (analyze_sast env_eval (PyDict record_a) (VStr "{}") (PyDict headers_json) state_ready).1
    = sast_findings state_ready.
Proof.
  apply (json_bodies_yield_nothing env_eval state_ready record_a (VStr "{}")
           (Some headers_json)).
  - apply service_inv_empty.
  - vm_compute. reflexivity.
  - vm_compute. reflexivity.
  - apply contains_false. vm_compute. reflexivity.
  - apply contains_false. vm_compute. reflexivity.
  - apply contains_spec. vm_compute. reflexivity.
Defined.

(** ** Clearing and initialising *)

Lemma clear_files_spec (env : Env) (names : list string) :
  ∀ st, ∃ f,
    clear_files env names st = (set_files f st, Ok tt)
    ∧ f ⊆ files st
    ∧ (∀ name, name ∈ names → unlink_ok env (path_join (TEMP_DIR env) name) = true →
         f !! path_join (TEMP_DIR env) name = None)
    ∧ (∀ p, (∀ name, name ∈ names → p ≠ path_join (TEMP_DIR env) name) →
         f !! p = files st !! p).
Proof.
  induction names as [|file rest IH]; intros st.
  - exists (files st). cbn [clear_files]. unfold mret, M_ret, ret.
    rewrite state_files_id. split; [done |]. split; [done |]. split; [| done].
    intros name Hin. by apply elem_of_nil in Hin.
  - cbn [clear_files]. unfold mbind at 1, M_bind, bind at 1, try_except, unlink, any_exception.
    set (p := path_join (TEMP_DIR env) file).
    destruct (unlink_ok env p && bool_decide (is_Some (files st !! p))) eqn:Hdo.
    + destruct (IH (set_files (delete p (files st)) st)) as (f & -> & Hsub & Hgone & Hkeep).
      cbn [files set_files] in *. exists f. split; [done |].
      split; [etrans; [exact Hsub | apply delete_subseteq] |]. split.
      * intros name [-> | Hin]%elem_of_cons Hok; [| by apply Hgone].
        fold p. eapply lookup_weaken_None; [apply lookup_delete_eq | exact Hsub].
      * intros q Hq. rewrite Hkeep.
        -- apply lookup_delete_ne. intros Heq.
           apply (Hq file); [apply elem_of_cons; by left | symmetry; exact Heq].
        -- intros name Hin. apply Hq. apply elem_of_cons. by right.
    + unfold mret, M_ret, ret.
      destruct (IH st) as (f & -> & Hsub & Hgone & Hkeep).
      exists f. split; [done |]. split; [done |]. split.
      * intros name [-> | Hin]%elem_of_cons Hok; [| by apply Hgone].
        fold p in Hok |- *. rewrite Hok in Hdo. cbn [andb] in Hdo.
        apply bool_decide_eq_false in Hdo.
        eapply lookup_weaken_None; [| exact Hsub].
        destruct (files st !! p) eqn:Hp; [| done]. destruct Hdo. by eexists.
      * intros q Hq. apply Hkeep. intros name Hin. apply Hq. apply elem_of_cons. by right.
Qed.

(** X17. [clear_all] never raises. It empties the findings store and the
    registry, leaves the flag and the pending timers as they are, creates no
    file, and when the scratch directory exists and can be listed, every
    listed file whose unlink is permitted is gone afterwards; files that are
    not listed are kept. *)
Theorem clear_all_empties (env : Env) (st : state) :
  ∃ f,
    clear_all env st
    = ({| sast_findings := []; sast_scanning := [];
          semgrep_initialized := semgrep_initialized st;
          files := f; timers := timers st |}, Ok tt)
    ∧ f ⊆ files st
    ∧ (∀ names name,
         path_exists env (TEMP_DIR env) = true →
         listdir env (TEMP_DIR env) = Ok names →
         name ∈ names →
         unlink_ok env (path_join (TEMP_DIR env) name) = true →
         f !! path_join (TEMP_DIR env) name = None)
    ∧ (path_exists env (TEMP_DIR env) = false → f = files st)
    ∧ (∀ e, listdir env (TEMP_DIR env) = Raise e → f = files st).
Proof.
  unfold clear_all.
  unfold mbind at 1, M_bind, bind at 1, modify.
  unfold mbind at 1, M_bind, bind at 1, try_except, any_exception.
  destruct (path_exists env (TEMP_DIR env)) eqn:Hdir.
  - unfold mbind at 1, M_bind, bind at 1, lift.
    destruct (listdir env (TEMP_DIR env)) as [names | e] eqn:Hlist.
    + destruct (clear_files_spec env names (set_scanning [] (set_findings [] st)))
        as (f & -> & Hsub & Hgone & _).
      cbn [files set_files set_scanning set_findings] in *.
      exists f. split; [done |]. split; [done |]. split; [| split; [done | done]].
      intros names' name _ [= <-]. apply Hgone.
    + exists (files st). unfold mret, M_ret, ret. cbn. repeat split; try done.
  - exists (files st). unfold mret, M_ret, ret. cbn. repeat split; try done.
Qed.

Lemma not_installed_spec (e : exn) :
  not_installed e = true ↔ e = SubprocessError ∨ e = FileNotFoundError.
Proof. unfold not_installed. destruct e; cbn; intuition congruence. Qed.

(** X18. [initialize_semgrep] never raises and changes nothing but the flag.
    The flag is on afterwards exactly when the scratch directory is there or
    could be made, and either the probe returned, or the probe raised one of
    the two classes line 51 names ([SubprocessError], [FileNotFoundError])
    while the flag was already on: a probe that fails that way does not turn
    the flag off, every other failure does. *)
Theorem initialize_semgrep_flag (temp_exists : bool) (makedirs : res unit)
    (version : res unit) (st : state) :
  ∃ b,
    initialize_semgrep temp_exists makedirs version st = (set_initialized b st, Ok tt)
    ∧ (b = true ↔
         (temp_exists = true ∨ makedirs = Ok tt)
         ∧ (version = Ok tt
            ∨ ((version = Raise SubprocessError ∨ version = Raise FileNotFoundError)
               ∧ semgrep_initialized st = true))).
Proof.
  unfold initialize_semgrep, try_except, any_exception.
  unfold mbind, M_bind, bind, lift, modify, mret, M_ret, ret.
  assert (set_initialized (semgrep_initialized st) st = st) as Hid by (by destruct st).
  destruct makedirs as [[] | e0], version as [[] | e].
  - exists true. split; [by destruct temp_exists |]. split; [| done].
    intros _. split; [by right | by left].
  - destruct (not_installed e) eqn:He.
    + exists (semgrep_initialized st). rewrite Hid. split; [by destruct temp_exists |].
      apply not_installed_spec in He. split.
      * intros Hb. split; [by right |]. right. split; [| done].
        destruct He as [-> | ->]; [by left | by right].
      * by intros [_ [? | [_ ?]]].
    + exists false. split; [by destruct temp_exists |]. split; [done |].
      intros [_ [? | [[[= ->] | [= ->]] _]]]; done.
  - destruct temp_exists; cbn [negb].
    + exists true. split; [done |]. split; [| done]. intros _. split; [by left | by left].
    + exists false. split; [done |]. split; [done |]. by intros [[? | ?] _].
  - destruct temp_exists; cbn [negb].
    + destruct (not_installed e) eqn:He.
      * exists (semgrep_initialized st). rewrite Hid. split; [done |].
        apply not_installed_spec in He. split.
        -- intros Hb. split; [by left |]. right. split; [| done].
           destruct He as [-> | ->]; [by left | by right].
        -- by intros [_ [? | [_ ?]]].
      * exists false. split; [done |]. split; [done |].
        intros [_ [? | [[[= ->] | [= ->]] _]]]; done.
    + exists false. split; [done |]. split; [done |]. by intros [[? | ?] _].
Qed.

(** ** The analyze route *)

(** X19. The analyze route never raises. It answers 400 exactly when the
    record or the body is missing or falsy, and then the state is untouched.
    It answers 500, the state untouched, when the JSON of the request is not
    an object, and when the record or the headers is a truthy value that is
    not a JSON object. In every other case, from a state that satisfies
    [service_inv], it answers 200 with the findings [analyze_sast] returns. *)
Theorem analyze_route_answers (env : Env) (st : state) (data : option request_data) :
  service_inv st →
  ∃ st' r,
    analyze_route env data st = (st', Ok r)
    ∧ (data = None → r = Error500 AttributeError ∧ st' = st)
    ∧ (∀ d, data = Some d →
         let headers := default (PyDict ∅) (rq_headers d) in
         if negb (pyobj_truthy (rq_record d)) || negb (truthy (rq_body d))
         then r = Error400 ∧ st' = st
         else (not_objects (rq_record d) headers →
                 r = Error500 AttributeError ∧ st' = st)
              ∧ (¬ not_objects (rq_record d) headers →
                   ∃ fs, analyze_sast env (rq_record d) (rq_body d) headers st = (st', Ok fs)
                         ∧ r = Findings200 fs)).
Proof.
  intros Hinv. unfold analyze_route, try_except, any_exception.
  unfold mbind at 1, M_bind, bind at 1, lift.
  destruct data as [d|].
  - cbv zeta.
    destruct (negb (pyobj_truthy (rq_record d)) || negb (truthy (rq_body d))) eqn:Hguard.
    + exists st, Error400. split; [done |]. split; [done |].
      intros d' [= <-]. by rewrite Hguard.
    + apply orb_false_iff in Hguard as [Hr Hb].
      apply negb_false_iff in Hr, Hb.
      destruct (objects_or_not (rq_record d) (default (PyDict ∅) (rq_headers d)))
        as [Hnot | (record & Hrec & Hheaders)].
      * unfold mbind at 1, M_bind, bind at 1.
        rewrite analyze_sast_not_objects by done.
        exists st, (Error500 AttributeError). split; [done |]. split; [done |].
        intros d' [= <-]. rewrite Hr, Hb. cbn [negb orb]. split; [done |].
        intros Hno. by destruct Hno.
      * rewrite Hrec in Hr |- *. cbn [pyobj_truthy] in Hr.
        destruct (analyze_sast_state env st record (rq_body d)
                    (default (PyDict ∅) (rq_headers d)) Hheaders Hinv Hr Hb)
          as (st' & fs & Hcall & _).
        unfold mbind at 1, M_bind, bind at 1. rewrite Hcall.
        exists st', (Findings200 fs). split; [done |]. split; [done |].
        intros d' [= <-]. rewrite Hrec. cbn [pyobj_truthy]. rewrite Hr, Hb. cbn [negb orb].
        split; [| by exists fs].
        intros [Hnot | Hnot]; [by destruct (Hnot record) | done].
  - exists st, (Error500 AttributeError). split; [done |]. split; [done | done].
Qed.

Lemma analyze_route_answers_witness :
  ∃ st' r,
    analyze_route env_eval (Some request_a) state_ready = (st', Ok r)
    ∧ (Some request_a = None → r = Error500 AttributeError ∧ st' = state_ready)
    ∧ (∀ d, Some request_a = Some d →
         let headers := default (PyDict ∅) (rq_headers d) in
         if negb (pyobj_truthy (rq_record d)) || negb (truthy (rq_body d))
         then r = Error400 ∧ st' = state_ready
         else (not_objects (rq_record d) headers →
                 r = Error500 AttributeError ∧ st' = state_ready)
              ∧ (¬ not_objects (rq_record d) headers →
                   ∃ fs, analyze_sast env_eval (rq_record d) (rq_body d) headers state_ready
                           = (st', Ok fs)
                         ∧ r = Findings200 fs)).
Proof.
  apply (analyze_route_answers env_eval state_ready (Some request_a)).
  apply service_inv_empty.
Defined.
